(** * Treeline savings goals: the goal allocation and pacing computations

    A shallow embedding of the computational part of [src/GoalsView.svelte]
    (the functions [calculateBalances], [getProgress], [getCurrentAmount],
    [getRemainingAmount], [getDaysRemaining], [getMonthlyNeeded],
    [isOnTrack] and the derived totals) together with the domain types of
    [src/types.ts], of the functions of the goal form ([resetForm],
    [applyTemplate], [addAllocation], [removeAllocation],
    [addEditAllocation], [removeEditAllocation], [createGoal] up to the
    statement it executes, [escapeSql]) and of the expressions of the
    markup that decide what a goal card and the summary show.

    JavaScript numbers are modelled by the type [number]: a rational, or one
    of the three special values of IEEE arithmetic.  Arithmetic on rationals
    is exact, so rounding and overflow are idealised away and the two zeros
    are identified; the special values follow the IEEE rules that the
    source can reach: a division by zero gives an infinity or [NaN], every
    comparison with [NaN] is false, [NaN] and [0] are falsy. *)

From Stdlib Require Import QArith Qcanon Qround Ascii.
From stdpp Require Import base numbers strings list gmap.

Local Open Scope Qc_scope.

(** ** JavaScript numbers *)

Inductive number : Type :=
  | Fin (q : Qc)
  | PosInf
  | NegInf
  | NaN.

Declare Scope js_scope.
Delimit Scope js_scope with js.
Bind Scope js_scope with number.

Module Num.

Definition of_Z (z : Z) : number := Fin (Qc_of_Z z).

Definition zero : number := of_Z 0.

(** Sign of a rational, as a [comparison] with zero. *)
Definition sgn (q : Qc) : comparison := (q ?= 0)%Qc.

Definition leb_Qc (a b : Qc) : bool :=
  match (a ?= b)%Qc with Gt => false | _ => true end.

Definition ltb_Qc (a b : Qc) : bool :=
  match (a ?= b)%Qc with Lt => true | _ => false end.

Definition neg (a : number) : number :=
  match a with
  | Fin q => Fin (- q)
  | PosInf => NegInf
  | NegInf => PosInf
  | NaN => NaN
  end.

Definition add (a b : number) : number :=
  match a, b with
  | NaN, _ | _, NaN => NaN
  | Fin x, Fin y => Fin (x + y)
  | PosInf, NegInf | NegInf, PosInf => NaN
  | PosInf, _ | _, PosInf => PosInf
  | NegInf, _ | _, NegInf => NegInf
  end.

Definition sub (a b : number) : number := add a (neg b).

(** An infinity of the sign of [c]; [Eq] is the sign of zero, for which
    the product with an infinity is undefined. *)
Definition inf_of_sign (c : comparison) : number :=
  match c with
  | Gt => PosInf
  | Lt => NegInf
  | Eq => NaN
  end.

Definition mul (a b : number) : number :=
  match a, b with
  | NaN, _ | _, NaN => NaN
  | Fin x, Fin y => Fin (x * y)
  | Fin x, PosInf | PosInf, Fin x => inf_of_sign (sgn x)
  | Fin x, NegInf | NegInf, Fin x => inf_of_sign (CompOpp (sgn x))
  | PosInf, PosInf | NegInf, NegInf => PosInf
  | PosInf, NegInf | NegInf, PosInf => NegInf
  end.

(** Division.  A zero divisor is the positive zero (the only zero divisor
    of the source is a difference [x - x]): a non-zero rational over zero
    is the infinity of its sign and [0 / 0] is [NaN]. *)
Definition div (a b : number) : number :=
  match a, b with
  | NaN, _ | _, NaN => NaN
  | Fin x, Fin y =>
      match sgn y with
      | Eq => inf_of_sign (sgn x)
      | _ => Fin (x / y)
      end
  | Fin _, (PosInf | NegInf) => zero
  | PosInf, Fin y =>
      match sgn y with Lt => NegInf | _ => PosInf end
  | NegInf, Fin y =>
      match sgn y with Lt => PosInf | _ => NegInf end
  | (PosInf | NegInf), (PosInf | NegInf) => NaN
  end.

(** [a <= b]; false as soon as one side is [NaN]. *)
Definition leb (a b : number) : bool :=
  match a, b with
  | NaN, _ | _, NaN => false
  | Fin x, Fin y => leb_Qc x y
  | NegInf, _ | _, PosInf => true
  | _, _ => false
  end.

(** [a < b]. *)
Definition ltb (a b : number) : bool :=
  match a, b with
  | NaN, _ | _, NaN => false
  | Fin x, Fin y => ltb_Qc x y
  | PosInf, _ | _, NegInf => false
  | _, _ => true
  end.

(** [a >= b] and [a > b]. *)
Definition geb (a b : number) : bool := leb b a.
Definition gtb (a b : number) : bool := ltb b a.

(** Truthiness of a number: [0] and [NaN] are falsy. *)
Definition truthy (a : number) : bool :=
  match a with
  | Fin q => match sgn q with Eq => false | _ => true end
  | PosInf | NegInf => true
  | NaN => false
  end.

Definition is_finite (a : number) : Prop :=
  match a with Fin _ => True | _ => False end.

Definition is_nan (a : number) : Prop :=
  match a with NaN => True | _ => False end.

End Num.

Infix "+" := Num.add : js_scope.
Infix "-" := Num.sub : js_scope.
Infix "*" := Num.mul : js_scope.
Infix "/" := Num.div : js_scope.
Infix "<=?" := Num.leb : js_scope.
Infix "<?" := Num.ltb : js_scope.
Infix ">=?" := Num.geb (at level 70) : js_scope.
Infix ">?" := Num.gtb (at level 70) : js_scope.

(** The [Math] object. *)
Module Math.

(** [Math.min(a, b)]: [NaN] if either argument is. *)
Definition min (a b : number) : number :=
  match a, b with
  | NaN, _ | _, NaN => NaN
  | _, _ => if Num.leb a b then a else b
  end.

(** [Math.max(a, b)]. *)
Definition max (a b : number) : number :=
  match a, b with
  | NaN, _ | _, NaN => NaN
  | _, _ => if Num.leb a b then b else a
  end.

(** [Math.ceil(a)]. *)
Definition ceil (a : number) : number :=
  match a with
  | Fin q => Num.of_Z (Qceiling q)
  | _ => a
  end.

End Math.

(** [m.get(k) || d] for a lookup that may be [undefined]: the default is
    taken when the entry is missing or falsy. *)
Definition or_default (o : option number) (d : number) : number :=
  match o with
  | Some v => if Num.truthy v then v else d
  | None => d
  end.

(** ** Domain types ([src/types.ts]) *)

(** ["percentage"] or ["fixed"]. *)
Inductive AllocationType : Type :=
  | percentage
  | fixed.

(** How much of an account is allocated to a goal. *)
Module AccountAllocation.
Record t : Type := mk {
  account_id : string;
  allocation_type : AllocationType;
  allocation_value : number
}.
End AccountAllocation.

(** A savings goal.  [target_date] and [allocations] are nullable. *)
Module Goal.
Record t : Type := mk {
  id : string;
  name : string;
  target_amount : number;
  target_date : option string;
  allocations : option (list AccountAllocation.t);
  starting_balance : number;
  icon : string;
  color : string;
  active : bool;
  completed : bool;
  completed_at : option string;
  created_at : string;
  updated_at : string
}.
End Goal.

(** Account info for goal linking. *)
Module Account.
Record t : Type := mk {
  account_id : string;
  name : string;
  balance : number;
  account_type : option string
}.
End Account.

(** ** Balances of the goals ([calculateBalances]) *)

(** [accounts.find((a) => a.account_id === id)]. *)
Definition findAccount (accounts : list Account.t) (id : string)
  : option Account.t :=
  List.find (fun a => String.eqb (Account.account_id a) id) accounts.

(** One turn of the inner loop over [goal.allocations]: the new [total]. *)
Definition sumAllocation (accounts : list Account.t) (total : number)
    (alloc : AccountAllocation.t) : number :=
  match findAccount accounts (AccountAllocation.account_id alloc) with
  | Some account =>
      match AccountAllocation.allocation_type alloc with
      | percentage =>
          (total + (Account.balance account
                    * AccountAllocation.allocation_value alloc) / Num.of_Z 100)%js
      | fixed =>
          (total + Math.min (AccountAllocation.allocation_value alloc)
                            (Account.balance account))%js
      end
  | None => total
  end.

(** The value stored for one goal: the sum over its allocations, or the
    starting balance when [goal.allocations] is [null] or empty. *)
Definition goalBalance (accounts : list Account.t) (goal : Goal.t) : number :=
  match Goal.allocations goal with
  | Some ((_ :: _) as allocs) =>
      fold_left (sumAllocation accounts) allocs Num.zero
  | _ => Goal.starting_balance goal
  end.

(** The outer loop: a map from goal identifiers to current amounts. *)
Definition calculateBalances (accounts : list Account.t) (goals : list Goal.t)
  : gmap string number :=
  fold_left
    (fun balances goal => <[Goal.id goal := goalBalance accounts goal]> balances)
    goals ∅.

(** ** Progress, current and remaining amounts *)

Section Helpers.

(** The component state [goalBalances]. *)
Variable goalBalances : gmap string number.

Definition getProgress (goal : Goal.t) : number :=
  let current := or_default (goalBalances !! Goal.id goal) Num.zero in
  let saved := (current - Goal.starting_balance goal)%js in
  let needed := (Goal.target_amount goal - Goal.starting_balance goal)%js in
  if (needed <=? Num.zero)%js then Num.of_Z 100
  else Math.min (Num.of_Z 100)
         (Math.max Num.zero ((saved / needed) * Num.of_Z 100)%js).

Definition getCurrentAmount (goal : Goal.t) : number :=
  or_default (goalBalances !! Goal.id goal) (Goal.starting_balance goal).

Definition getRemainingAmount (goal : Goal.t) : number :=
  let current := getCurrentAmount goal in
  Math.max Num.zero (Goal.target_amount goal - current)%js.

(** *** Pacing *)

(** [new Date(s).getTime()], the time value in milliseconds of a date
    string ([NaN] for a string that is not a date), and the time value of
    [new Date()]. *)
Variable dateTime : string → number.
Variable today : number.

(** [1000 * 60 * 60 * 24] *)
Definition msPerDay : number :=
  (Num.of_Z 1000 * Num.of_Z 60 * Num.of_Z 60 * Num.of_Z 24)%js.

(** Truthiness of [goal.target_date]: [null] and the empty string are
    falsy. *)
Definition targetDate (goal : Goal.t) : option string :=
  match Goal.target_date goal with
  | Some s => if String.eqb s "" then None else Some s
  | None => None
  end.

Definition getDaysRemaining (goal : Goal.t) : option number :=
  match targetDate goal with
  | None => None
  | Some target_date =>
      let target := dateTime target_date in
      let diff := (target - today)%js in
      Some (Math.ceil (diff / msPerDay)%js)
  end.

Definition getMonthlyNeeded (goal : Goal.t) : option number :=
  match getDaysRemaining goal with
  | None => None
  | Some days =>
      if (days <=? Num.zero)%js then None
      else
        let remaining := getRemainingAmount goal in
        let months := (days / Num.of_Z 30)%js in
        Some (remaining / months)%js
  end.

(** The locals [totalDays] and [expectedProgress] of [isOnTrack]. *)
Definition totalDays (goal : Goal.t) (target_date : string) : number :=
  ((dateTime target_date - dateTime (Goal.created_at goal)) / msPerDay)%js.

Definition expectedProgress (goal : Goal.t) (target_date : string)
    (days : number) : number :=
  let totalDays := totalDays goal target_date in
  let elapsed := (totalDays - days)%js in
  ((elapsed / totalDays) * Num.of_Z 100)%js.

Definition isOnTrack (goal : Goal.t) : option bool :=
  match targetDate goal with
  | None => None
  | Some target_date =>
      match getDaysRemaining goal with
      | None => None
      | Some days =>
          let expectedProgress := expectedProgress goal target_date days in
          let actualProgress := getProgress goal in
          (* 5% tolerance *)
          Some (actualProgress >=? expectedProgress - Num.of_Z 5)%js
      end
  end.

(** *** Derived state *)

Definition activeGoals (goals : list Goal.t) : list Goal.t :=
  List.filter (fun g => negb (Goal.completed g)) goals.

Definition completedGoals (goals : list Goal.t) : list Goal.t :=
  List.filter (fun g => Goal.completed g) goals.

Definition totalSaved (goals : list Goal.t) : number :=
  fold_left
    (fun sum g => (sum + (getCurrentAmount g - Goal.starting_balance g))%js)
    (activeGoals goals) Num.zero.

Definition totalTarget (goals : list Goal.t) : number :=
  fold_left
    (fun sum g =>
       (sum + (Goal.target_amount g - Goal.starting_balance g))%js)
    (activeGoals goals) Num.zero.

End Helpers.

(** ** The specification's formulas

    These definitions follow the words of the specification; the theorems
    below compare them with the functions above. *)

Module Spec.

(** Sum of a list of numbers: they are added to 0 one after the other, in
    the order of the list. *)
Definition total (l : list number) : number := fold_left Num.add l Num.zero.

(** The contribution of one allocation rule on its account. *)
Definition contribution (account : Account.t) (alloc : AccountAllocation.t)
  : number :=
  match AccountAllocation.allocation_type alloc with
  | percentage =>
      (Account.balance account * AccountAllocation.allocation_value alloc
       / Num.of_Z 100)%js
  | fixed =>
      Math.min (AccountAllocation.allocation_value alloc)
               (Account.balance account)
  end.

(** The contributions of the rules whose account is in the snapshot. *)
Definition contributions (accounts : list Account.t)
    (allocs : list AccountAllocation.t) : list number :=
  omap (fun alloc =>
          account ← findAccount accounts (AccountAllocation.account_id alloc);
          Some (contribution account alloc))
       allocs.

(** The account a rule refers to: the first account of the snapshot that
    carries the account identifier of the rule, if there is one. *)
Definition referenced (accounts : list Account.t)
    (alloc : AccountAllocation.t) : option Account.t :=
  head (filter (fun account =>
                  Account.account_id account
                  = AccountAllocation.account_id alloc)
               accounts).

(** The contributions of the rules that refer to an account of the
    snapshot, in the order of the rules. *)
Definition claimed (accounts : list Account.t)
    (allocs : list AccountAllocation.t) : list number :=
  omap (fun alloc =>
          (fun account => contribution account alloc)
            <$> referenced accounts alloc)
       allocs.

(** [clamp x lo hi] *)
Definition clamp (x lo hi : number) : number :=
  if (x <? lo)%js then lo else if (x >? hi)%js then hi else x.

(** The goals that are not completed. *)
Definition active (goals : list Goal.t) : list Goal.t :=
  filter (fun g => Goal.completed g = false) goals.



(** A goal without target date: [null], or the empty string. *)
Definition noTargetDate (goal : Goal.t) : Prop :=
  Goal.target_date goal = None ∨ Goal.target_date goal = Some ""%string.

End Spec.

(** ** The goal form

    The form state of the "new goal" dialog and the functions that edit
    it: [resetForm], [applyTemplate], [addAllocation], [removeAllocation],
    their counterparts on a goal being edited, and [createGoal]. *)

(** Toast notifications of the plugin SDK that report a refusal. *)
Inductive Toast : Type :=
  | toast_error (message : string)
  | toast_warning (message : string).

(** [newGoalName], [newGoalTargetAmount], [newGoalTargetDate],
    [newGoalIcon], [newGoalColor] and [newGoalAllocations]. *)
Module Form.
Record t : Type := mk {
  newGoalName : string;
  newGoalTargetAmount : number;
  newGoalTargetDate : option string;
  newGoalIcon : string;
  newGoalColor : string;
  newGoalAllocations : list AccountAllocation.t
}.
End Form.

Definition resetForm : Form.t :=
  Form.mk "" Num.zero None "🎯" "#3b82f6" [].

(** A preset of [goalTemplates]: [months] or [amount] may be absent. *)
Module Template.
Record t : Type := mk {
  name : string;
  icon : string;
  color : string;
  months : option number;
  amount : option number
}.
End Template.

Definition goalTemplates : list Template.t :=
  [ Template.mk "Emergency Fund" "🛡️" "#ef4444" (Some (Num.of_Z 6)) None;
    Template.mk "House Down Payment" "🏠" "#22c55e" None (Some (Num.of_Z 50000));
    Template.mk "Vacation" "✈️" "#8b5cf6" None (Some (Num.of_Z 5000));
    Template.mk "New Car" "🚗" "#f59e0b" None (Some (Num.of_Z 25000));
    Template.mk "Wedding" "💒" "#ec4899" None (Some (Num.of_Z 20000));
    Template.mk "Education" "🎓" "#06b6d4" None (Some (Num.of_Z 10000)) ].

Definition applyTemplate (template : Template.t) (form : Form.t) : Form.t :=
  let target :=
    match Template.amount template with
    | Some amount => amount
    | None => Form.newGoalTargetAmount form
    end in
  (* For emergency fund: a placeholder, the user can adjust *)
  let target :=
    match Template.months template with
    | Some months => if Num.truthy months then Num.of_Z 10000 else target
    | None => target
    end in
  Form.mk (Template.name template) target (Form.newGoalTargetDate form)
          (Template.icon template) (Template.color template)
          (Form.newGoalAllocations form).

(** [l.filter((x, i) => p(x, i))], the indices counted from [i]. *)
Fixpoint filterFrom {A : Type} (p : A → nat → bool) (i : nat) (l : list A)
  : list A :=
  match l with
  | [] => []
  | x :: l => if p x i then x :: filterFrom p (S i) l else filterFrom p (S i) l
  end.

Definition Array_filter {A : Type} (p : A → nat → bool) (l : list A) : list A :=
  filterFrom p 0 l.

(** [new Set(allocations.map(a => a.account_id))] *)
Definition usedIds (allocations : list AccountAllocation.t) : gset string :=
  list_to_set (AccountAllocation.account_id <$> allocations).

(** [accounts.find(a => !usedIds.has(a.account_id))]: the first account
    not already allocated. *)
Definition findAvailable (accounts : list Account.t)
    (allocations : list AccountAllocation.t) : option Account.t :=
  List.find
    (fun a => negb (bool_decide (Account.account_id a ∈ usedIds allocations)))
    accounts.

(** The rule appended for an account: all of it. *)
Definition wholeAccount (available : Account.t) : AccountAllocation.t :=
  AccountAllocation.mk (Account.account_id available) percentage (Num.of_Z 100).

(** [addAllocation]: the new value of [newGoalAllocations] and the toast
    shown, if any. *)
Definition addAllocation (accounts : list Account.t)
    (newGoalAllocations : list AccountAllocation.t)
  : list AccountAllocation.t * option Toast :=
  match accounts with
  | [] => (newGoalAllocations, None)
  | _ =>
      match findAvailable accounts newGoalAllocations with
      | None =>
          (newGoalAllocations,
           Some (toast_warning "All accounts already allocated"))
      | Some available =>
          (newGoalAllocations ++ [wholeAccount available], None)
      end
  end.

Definition removeAllocation (index : nat)
    (newGoalAllocations : list AccountAllocation.t)
  : list AccountAllocation.t :=
  Array_filter (fun _ i => negb (Nat.eqb i index)) newGoalAllocations.

(** The rules are on pairwise distinct accounts of the snapshot. *)
Definition wellLinked (accounts : list Account.t)
    (allocations : list AccountAllocation.t) : Prop :=
  NoDup (AccountAllocation.account_id <$> allocations)
  ∧ Forall (fun alloc =>
              is_Some (findAccount accounts (AccountAllocation.account_id alloc)))
           allocations.

(** [goal.allocations = allocations], the other fields kept. *)
Definition setAllocations (goal : Goal.t)
    (allocations : option (list AccountAllocation.t)) : Goal.t :=
  Goal.mk (Goal.id goal) (Goal.name goal) (Goal.target_amount goal)
          (Goal.target_date goal) allocations (Goal.starting_balance goal)
          (Goal.icon goal) (Goal.color goal) (Goal.active goal)
          (Goal.completed goal) (Goal.completed_at goal)
          (Goal.created_at goal) (Goal.updated_at goal).

(** [addEditAllocation]: the goal after the call and the toast shown. *)
Definition addEditAllocation (accounts : list Account.t) (goal : Goal.t)
  : Goal.t * option Toast :=
  let allocations :=
    match Goal.allocations goal with
    | None => []
    | Some allocations => allocations
    end in
  match findAvailable accounts allocations with
  | None =>
      (setAllocations goal (Some allocations),
       Some (toast_warning "All accounts already allocated"))
  | Some available =>
      (setAllocations goal (Some (allocations ++ [wholeAccount available])),
       None)
  end.

Definition removeEditAllocation (goal : Goal.t) (index : nat) : Goal.t :=
  match Goal.allocations goal with
  | None => goal
  | Some allocations =>
      setAllocations goal
        (Some (Array_filter (fun _ i => negb (Nat.eqb i index)) allocations))
  end.

(** The values that [createGoal] writes into its [INSERT] statement. *)
Module Insert.
Record t : Type := mk {
  id : string;
  name : string;
  target_amount : number;
  target_date : option string;
  allocations : option (list AccountAllocation.t);
  starting_balance : number;
  icon : string;
  color : string
}.
End Insert.

(** [s || d] on strings: the empty string is falsy. *)
Definition or_string (s d : string) : string :=
  if String.eqb s "" then d else s.

(** [createGoal], up to the statement it executes: the values inserted for
    the identifier [id] drawn by [crypto.randomUUID()], or the toast of the
    refusal.  The allocations are written as JSON when there are any and as
    [NULL] otherwise; an empty target date is written as [NULL]. *)
Definition createGoal (accounts : list Account.t) (id : string)
    (form : Form.t) : Insert.t + Toast :=
  if String.eqb (Form.newGoalName form) ""
     || negb (Num.truthy (Form.newGoalTargetAmount form))
  then inr (toast_error "Name and target amount are required")
  else
    let newGoalAllocations := Form.newGoalAllocations form in
    let allocationsJson :=
      match newGoalAllocations with
      | [] => None
      | _ => Some newGoalAllocations
      end in
    (* Calculate starting balance from allocations *)
    let startingBalance :=
      fold_left (sumAllocation accounts) newGoalAllocations Num.zero in
    inl (Insert.mk id (Form.newGoalName form) (Form.newGoalTargetAmount form)
           (match Form.newGoalTargetDate form with
            | Some date => if String.eqb date "" then None else Some date
            | None => None
            end)
           allocationsJson startingBalance
           (or_string (Form.newGoalIcon form) "🎯")
           (or_string (Form.newGoalColor form) "#3b82f6")).

(** ** Escaping of SQL strings *)

Definition quote : Ascii.ascii := "'"%char.

(** [str.replace(/'/g, "''")], on the bytes of the string. *)
Fixpoint escapeSql (str : string) : string :=
  match str with
  | EmptyString => EmptyString
  | String c str =>
      if Ascii.eqb c quote then String quote (String quote (escapeSql str))
      else String c (escapeSql str)
  end.

Module Sql.

(** The body of an SQL string literal, read after its opening quote: two
    quotes in a row stand for one quote and a single quote closes the
    literal.  The result is the value of the literal and the rest of the
    statement. *)
Fixpoint readBody (s : string) : option (string * string) :=
  match s with
  | EmptyString => None
  | String c rest =>
      if Ascii.eqb c quote then
        match rest with
        | String c' rest' =>
            if Ascii.eqb c' quote
            then prod_map (String quote) (fun r => r) <$> readBody rest'
            else Some (EmptyString, rest)
        | EmptyString => Some (EmptyString, EmptyString)
        end
      else prod_map (String c) (fun r => r) <$> readBody rest
  end.

Definition readLiteral (s : string) : option (string * string) :=
  match s with
  | String c rest => if Ascii.eqb c quote then readBody rest else None
  | EmptyString => None
  end.

(** A statement continues after a literal with something else than a
    quote. *)
Definition noQuoteAhead (rest : string) : Prop :=
  match rest with
  | String c _ => c ≠ quote
  | EmptyString => True
  end.

End Sql.

(** ** The goal card and the summary of the markup *)

Section Card.

Variable goalBalances : gmap string number.

(** The line under the name of a goal with a target date. *)
Inductive DateLabel : Type :=
  | days_left (daysLeft : number)
  | past_due
  | no_label.

(** The line shown for [goal] when [daysLeft] is the value that the card
    got from its call of [getDaysRemaining]. *)
Definition dateLabel (goal : Goal.t) (daysLeft : option number) : DateLabel :=
  match targetDate goal with
  | None => no_label
  | Some _ =>
      match daysLeft with
      | Some daysLeft =>
          if (daysLeft >? Num.zero)%js then days_left daysLeft
          else if (daysLeft <=? Num.zero)%js then past_due
          else no_label
      | None => no_label
      end
  end.

(** [{#if progress >= 100}]: the "Mark Complete" button is shown. *)
Definition showMarkComplete (goal : Goal.t) : bool :=
  (getProgress goalBalances goal >=? Num.of_Z 100)%js.

(** The width, in percent, of the fill of the summary bar. *)
Definition summaryWidth (goals : list Goal.t) : number :=
  if (totalTarget goals >? Num.zero)%js
  then (totalSaved goalBalances goals / totalTarget goals * Num.of_Z 100)%js
  else Num.zero.

(** [activeGoals.length === 0 && completedGoals.length === 0] *)
Definition showEmpty (goals : list Goal.t) : bool :=
  Nat.eqb (length (activeGoals goals)) 0
  && Nat.eqb (length (completedGoals goals)) 0.

End Card.

(** ** Scenarios

    Concrete snapshots used to run the functions. *)

Module Scenario.

(** Time values of the dates that occur below ([Date.parse] of each). *)
Definition dateTime (s : string) : number :=
  if String.eqb s "2025-01-01T00:00:00.000Z" then Num.of_Z 1735689600000
  else if String.eqb s "2025-04-01T00:00:00.000Z" then Num.of_Z 1743465600000
  else NaN.

(** 2025-03-02T00:00:00.000Z *)
Definition today : number := Num.of_Z 1740873600000.

Definition checking (balance : Z) : Account.t :=
  Account.mk "acct-1" "Checking" (Num.of_Z balance) (Some "depository"%string).

Definition rule (account_id : string) (kind : AllocationType) (value : Z)
  : AccountAllocation.t :=
  AccountAllocation.mk account_id kind (Num.of_Z value).

Definition goal (id : string) (target : Z) (target_date : option string)
    (allocations : option (list AccountAllocation.t)) (starting : Z)
    (completed : bool) : Goal.t :=
  Goal.mk id "Vacation" (Num.of_Z target) target_date allocations
          (Num.of_Z starting) "" "#8b5cf6" true completed None
          "2025-01-01T00:00:00.000Z" "2025-01-01T00:00:00.000Z".

(** Target 10,000, starting 0, half of an account holding 4,000. *)
Definition goalA : Goal.t :=
  goal "goal-a" 10000 None (Some [rule "acct-1" percentage 50]) 0 false.

(** Target 5,000, starting 1,000, a fixed claim of 10,000 on an account
    holding 3,000, and a rule on an account that does not exist. *)
Definition goalB : Goal.t :=
  goal "goal-b" 5000 None
       (Some [rule "acct-1" fixed 10000; rule "acct-9" percentage 100])
       1000 false.

(** Created 60 days ago, due in 30 days, 40% saved. *)
Definition goalC : Goal.t :=
  goal "goal-c" 10000 (Some "2025-04-01T00:00:00.000Z"%string) None 0 false.

Definition balancesC : gmap string number := {[ "goal-c"%string := Num.of_Z 4000 ]}.

(** Due on the day of its creation, target already met, looked at on
    that very instant. *)
Definition goalD : Goal.t :=
  goal "goal-d" 5000 (Some "2025-01-01T00:00:00.000Z"%string) None 5000 false.

Definition todayD : number := Num.of_Z 1735689600000.

(** Manual tracking. *)
Definition goalM : Goal.t := goal "goal-m" 800 None None 250 false.

(** A goal whose starting balance exceeds both its target and what its
    account now holds. *)
Definition goalN : Goal.t :=
  goal "goal-n" 500 None (Some [rule "acct-1" percentage 100]) 900 false.

Definition goalDone : Goal.t := goal "goal-z" 100 None None 100 true.

(** Every rule of the goal points at a missing account. *)
Definition goalLost : Goal.t :=
  goal "goal-l" 2000 None (Some [rule "acct-9" fixed 700]) 700 false.

End Scenario.

(** Further snapshots: two accounts, and forms of the dialog. *)
Module Sample.

Definition savings : Account.t :=
  Account.mk "acct-2" "Savings" (Num.of_Z 1200) (Some "depository"%string).

Definition accounts : list Account.t := [Scenario.checking 3000; savings].

(** One rule, on the first account. *)
Definition oneRule : list AccountAllocation.t :=
  [Scenario.rule "acct-1" fixed 500].

(** A rule on each account. *)
Definition bothRules : list AccountAllocation.t :=
  [Scenario.rule "acct-1" fixed 500; Scenario.rule "acct-2" percentage 25].

(** A filled form: 8,000 for a car, funded by the two rules. *)
Definition form : Form.t :=
  Form.mk "New Car" (Num.of_Z 8000) (Some "2025-04-01T00:00:00.000Z"%string)
          "" "#f59e0b" bothRules.

(** The goal that holds the values inserted for [form]: the rules claim
    500 and a quarter of 1,200, that is 800. *)
Definition carGoal : Goal.t :=
  Scenario.goal "goal-car" 8000 (Some "2025-04-01T00:00:00.000Z"%string)
                (Some bothRules) 800 false.

End Sample.

(** ** Facts about numbers *)

Section NumFacts.

Implicit Types a b c : number.
Implicit Types x y : Qc.

Lemma leb_Qc_true x y : Num.leb_Qc x y = true ↔ x ≤ y.
Proof.
  unfold Num.leb_Qc. rewrite Qcle_alt.
  destruct (x ?= y); split; intros; congruence.
Qed.

Lemma leb_Qc_false x y : Num.leb_Qc x y = false ↔ y < x.
Proof.
  rewrite Qclt_nge, <- leb_Qc_true. destruct (Num.leb_Qc x y); split; intros; congruence.
Qed.

Lemma ltb_Qc_true x y : Num.ltb_Qc x y = true ↔ x < y.
Proof.
  unfold Num.ltb_Qc. rewrite Qclt_alt.
  destruct (x ?= y); split; intros; congruence.
Qed.

Lemma ltb_Qc_false x y : Num.ltb_Qc x y = false ↔ y ≤ x.
Proof.
  rewrite Qcle_ngt, <- ltb_Qc_true. destruct (Num.ltb_Qc x y); split; intros; congruence.
Qed.

Lemma sgn_Eq x : Num.sgn x = Eq ↔ x = 0.
Proof. unfold Num.sgn. symmetry. apply Qceq_alt. Qed.

Lemma sgn_Gt x : Num.sgn x = Gt ↔ 0 < x.
Proof. unfold Num.sgn. symmetry. apply Qcgt_alt. Qed.

Lemma sgn_Lt x : Num.sgn x = Lt ↔ x < 0.
Proof. unfold Num.sgn. symmetry. apply Qclt_alt. Qed.

Lemma zero_Fin : Num.zero = Fin 0.
Proof. unfold Num.zero, Num.of_Z. by rewrite Z2Qc_inj_0. Qed.

Lemma add_zero_l a : (Num.zero + a)%js = a.
Proof.
  rewrite zero_Fin. destruct a; cbn [Num.add]; try done.
  by rewrite Qcplus_0_l.
Qed.

Lemma add_zero_r a : (a + Num.zero)%js = a.
Proof.
  rewrite zero_Fin. destruct a; cbn [Num.add]; try done.
  by rewrite Qcplus_0_r.
Qed.


Lemma leb_refl a : ¬ Num.is_nan a → (a <=? a)%js = true.
Proof.
  destruct a; cbn; try done. intros _. by apply leb_Qc_true.
Qed.

Lemma gtb_leb a b : (a <=? b)%js = true → (a >? b)%js = false.
Proof.
  unfold Num.gtb. destruct a, b; cbn; try done.
  rewrite leb_Qc_true, ltb_Qc_false. done.
Qed.

Lemma min_leb_r a b :
  ¬ Num.is_nan a → ¬ Num.is_nan b → (Math.min a b <=? b)%js = true.
Proof.
  intros Ha Hb.
  destruct a as [x| | |], b as [y| | |];
    try (by exfalso; apply Ha); try (by exfalso; apply Hb); try done.
  - unfold Math.min. cbn [Num.leb].
    destruct (Num.leb_Qc x y) eqn:Hxy; cbn [Num.leb]; [done|].
    by apply leb_Qc_true.
  - by apply leb_Qc_true.
Qed.

Lemma min_not_gtb_r a b : (Math.min a b >? b)%js = false.
Proof.
  destruct a as [x| | |], b as [y| | |]; try done.
  - unfold Math.min, Num.gtb. cbn [Num.leb].
    destruct (Num.leb_Qc x y) eqn:Hxy; cbn [Num.ltb].
    + apply ltb_Qc_false. by apply leb_Qc_true.
    + by apply ltb_Qc_false.
  - by apply ltb_Qc_false.
Qed.

End NumFacts.

(** Equalities between closed numbers are settled by evaluation, up to the
    proof that a rational is in lowest terms. *)
Lemma Fin_eq (x y : Qc) : (x == y)%Q → Fin x = Fin y.
Proof. intros H. f_equal. by apply Qc_is_canon. Qed.

Ltac js_eval :=
  vm_compute;
  repeat match goal with
    | |- Some _ = Some _ => apply (f_equal Some)
    | |- _ ∧ _ => split
    | |- Fin _ = Fin _ => apply Fin_eq; reflexivity
    | |- _ => reflexivity
    end.

(** From here on the arithmetic is used through the facts above. *)
Global Arguments Num.add : simpl never.
Global Arguments Num.sub : simpl never.
Global Arguments Num.mul : simpl never.
Global Arguments Num.div : simpl never.
Global Arguments Num.leb : simpl never.
Global Arguments Num.ltb : simpl never.
Global Arguments Math.min : simpl never.
Global Arguments Math.max : simpl never.
Global Arguments Math.ceil : simpl never.

(** ** The allocation resolver *)

Section Resolver.

Variable accounts : list Account.t.

Implicit Types goal : Goal.t.
Implicit Types goals : list Goal.t.
Implicit Types balances : gmap string number.

(** The step of the outer loop of [calculateBalances]. *)
Local Abbreviation setBalance :=
  (fun balances goal => <[Goal.id goal := goalBalance accounts goal]> balances).

Lemma setBalance_other goals balances (k : string) :
  k ∉ Goal.id <$> goals →
  fold_left setBalance goals balances !! k = balances !! k.
Proof.
  revert balances. induction goals as [|g goals IH]; intros balances Hk; [done|].
  rewrite fmap_cons, not_elem_of_cons in Hk. destruct Hk as [Hne Hk].
  cbn [fold_left]. rewrite IH by done. by rewrite lookup_insert_ne.
Qed.

(** With pairwise distinct goal identifiers, the entry of a goal is the
    value computed for that goal. *)
Lemma calculateBalances_lookup goals goal :
  NoDup (Goal.id <$> goals) → goal ∈ goals →
  calculateBalances accounts goals !! Goal.id goal
  = Some (goalBalance accounts goal).
Proof.
  unfold calculateBalances. generalize (∅ : gmap string number).
  induction goals as [|g goals IH]; intros balances Hnd Hin.
  - by apply elem_of_nil in Hin.
  - rewrite fmap_cons, NoDup_cons in Hnd. destruct Hnd as [Hg Hnd].
    cbn [fold_left]. apply elem_of_cons in Hin as [->|Hin].
    + rewrite setBalance_other by done. by rewrite lookup_insert_eq.
    + by apply IH.
Qed.

(** The lookup of the loop finds the account the rule refers to. *)
Lemma findAccount_referenced alloc :
  findAccount accounts (AccountAllocation.account_id alloc)
  = Spec.referenced accounts alloc.
Proof.
  unfold findAccount, Spec.referenced.
  induction accounts as [|a accs IH]; [done|].
  cbn [List.find]. rewrite filter_cons.
  destruct (String.eqb_spec (Account.account_id a)
              (AccountAllocation.account_id alloc)) as [Heq|Hne].
  - by rewrite decide_True by done.
  - by rewrite decide_False by done.
Qed.

(** The inner loop adds the contributions to the total one after the
    other, in the order of the rules. *)
Lemma fold_sumAllocation_claimed allocs total :
  fold_left (sumAllocation accounts) allocs total
  = fold_left Num.add (Spec.claimed accounts allocs) total.
Proof.
  revert total. induction allocs as [|alloc allocs IH]; intros total; [done|].
  cbn [fold_left]. rewrite IH. unfold sumAllocation, Spec.claimed.
  rewrite findAccount_referenced. cbn [omap list_omap].
  destruct (Spec.referenced accounts alloc) as [account|]; [|done].
  cbn. unfold Spec.contribution.
  by destruct (AccountAllocation.allocation_type alloc).
Qed.

Lemma sumAllocation_missing total alloc :
  findAccount accounts (AccountAllocation.account_id alloc) = None →
  sumAllocation accounts total alloc = total.
Proof. unfold sumAllocation. by intros ->. Qed.

Lemma fold_sumAllocation_app allocs1 allocs2 total :
  fold_left (sumAllocation accounts) (allocs1 ++ allocs2) total
  = fold_left (sumAllocation accounts) allocs2
      (fold_left (sumAllocation accounts) allocs1 total).
Proof. apply fold_left_app. Qed.

Lemma goalBalance_allocated goal allocs :
  Goal.allocations goal = Some allocs → allocs ≠ [] →
  goalBalance accounts goal
  = fold_left (sumAllocation accounts) allocs Num.zero.
Proof.
  unfold goalBalance. intros Hallocs Hne. rewrite Hallocs.
  destruct allocs as [|alloc allocs]; [by destruct Hne | reflexivity].
Qed.

(** If every rule points at a missing account the loop leaves [0]. *)
Lemma fold_sumAllocation_all_missing allocs total :
  Forall (fun alloc =>
            findAccount accounts (AccountAllocation.account_id alloc) = None)
         allocs →
  fold_left (sumAllocation accounts) allocs total = total.
Proof.
  intros H. revert total. induction H as [|alloc allocs Ha _ IH]; intros total.
  - done.
  - cbn [fold_left]. by rewrite sumAllocation_missing, IH.
Qed.

End Resolver.

(** Scenario A: half of 4,000 is 2,000.  Scenario B: the claim of 10,000
    is capped at the 3,000 of the account and the rule on the missing
    account adds nothing. *)
Example scenarioA_balance :
  calculateBalances [Scenario.checking 4000] [Scenario.goalA; Scenario.goalM]
    !! "goal-a"%string = Some (Num.of_Z 2000).
Proof. js_eval. Qed.

Example scenarioB_balance :
  calculateBalances [Scenario.checking 3000] [Scenario.goalA; Scenario.goalB]
    !! "goal-b"%string = Some (Num.of_Z 3000).
Proof. js_eval. Qed.

(** C1. For a goal with a non-empty allocation list, the amount stored by
    [calculateBalances] is the sum, taken in the order of the rules, over
    the rules that refer to an account of the snapshot, of
    [balance * value / 100] for a percentage rule and of
    [min(value, balance)] for a fixed rule.  The contribution of a fixed
    rule never exceeds the balance of its account, and is at most that
    balance whenever neither number is [NaN].  Goal identifiers are
    pairwise distinct (they are the primary key of the goals table). *)
Theorem resolver_sums_contributions
    (accounts : list Account.t) (goals : list Goal.t) (goal : Goal.t)
    (allocs : list AccountAllocation.t) :
  NoDup (Goal.id <$> goals) → goal ∈ goals →
  Goal.allocations goal = Some allocs → allocs ≠ [] →
  calculateBalances accounts goals !! Goal.id goal
  = Some (Spec.total (Spec.claimed accounts allocs))
  ∧ ∀ alloc account,
      alloc ∈ allocs →
      account ∈ accounts →
      Account.account_id account = AccountAllocation.account_id alloc →
      AccountAllocation.allocation_type alloc = fixed →
      (Spec.contribution account alloc >? Account.balance account)%js = false
      ∧ (¬ Num.is_nan (AccountAllocation.allocation_value alloc) →
         ¬ Num.is_nan (Account.balance account) →
         (Spec.contribution account alloc <=? Account.balance account)%js = true).
Proof.
  intros Hnd Hin Hallocs Hne. split.
  - rewrite calculateBalances_lookup by done.
    rewrite (goalBalance_allocated _ _ _ Hallocs Hne).
    apply f_equal, fold_sumAllocation_claimed.
  - intros alloc account _ _ _ Hfixed. unfold Spec.contribution.
    rewrite Hfixed. split.
    + apply min_not_gtb_r.
    + apply min_leb_r.
Qed.

(** Scenario B: of the two rules only the fixed one refers to an account
    of the snapshot; its claim of 10,000 is capped at the 3,000 of the
    account, and the stored amount is [0 + 3000]. *)
Lemma resolver_sums_contributions_witness :
  Spec.claimed [Scenario.checking 3000]
    [Scenario.rule "acct-1" fixed 10000; Scenario.rule "acct-9" percentage 100]
  = [Math.min (Num.of_Z 10000) (Num.of_Z 3000)]
  ∧ calculateBalances [Scenario.checking 3000] [Scenario.goalA; Scenario.goalB]
      !! Goal.id Scenario.goalB
    = Some (Spec.total
              (Spec.claimed [Scenario.checking 3000]
                 [Scenario.rule "acct-1" fixed 10000;
                  Scenario.rule "acct-9" percentage 100])).
Proof.
  split; [reflexivity|].
  refine (proj1 (resolver_sums_contributions
                   [Scenario.checking 3000] [Scenario.goalA; Scenario.goalB]
                   Scenario.goalB _ _ _ _ _)).
  - compute_done.
  - repeat constructor.
  - reflexivity.
  - discriminate.
Defined.

(** C6. A rule whose account is missing from the snapshot leaves the
    running total as it is: the amount stored for the goal is the one the
    loop computes on the list without that rule.  The lookup of the account
    returns no account and no step can fail. *)
Theorem missing_account_contributes_zero
    (accounts : list Account.t) (goals : list Goal.t) (goal : Goal.t)
    (allocs1 allocs2 : list AccountAllocation.t) (alloc : AccountAllocation.t) :
  NoDup (Goal.id <$> goals) → goal ∈ goals →
  Goal.allocations goal = Some (allocs1 ++ alloc :: allocs2) →
  findAccount accounts (AccountAllocation.account_id alloc) = None →
  (∀ total, sumAllocation accounts total alloc = total)
  ∧ Spec.contributions accounts [alloc] = []
  ∧ calculateBalances accounts goals !! Goal.id goal
    = Some (fold_left (sumAllocation accounts) (allocs1 ++ allocs2) Num.zero).
Proof.
  intros Hnd Hin Hallocs Hmissing. split; [|split].
  - intros total. by apply sumAllocation_missing.
  - unfold Spec.contributions. cbn. by rewrite Hmissing.
  - rewrite calculateBalances_lookup by done.
    rewrite (goalBalance_allocated _ _ _ Hallocs) by by destruct allocs1.
    rewrite !fold_sumAllocation_app. cbn [fold_left].
    by rewrite sumAllocation_missing.
Qed.

Lemma missing_account_contributes_zero_witness :
  calculateBalances [Scenario.checking 3000] [Scenario.goalA; Scenario.goalB]
    !! Goal.id Scenario.goalB
  = Some (fold_left (sumAllocation [Scenario.checking 3000])
            ([Scenario.rule "acct-1" fixed 10000] ++ []) Num.zero).
Proof.
  refine (proj2 (proj2 (missing_account_contributes_zero
                   [Scenario.checking 3000] [Scenario.goalA; Scenario.goalB]
                   Scenario.goalB [Scenario.rule "acct-1" fixed 10000] []
                   (Scenario.rule "acct-9" percentage 100) _ _ _ _))).
  - compute_done.
  - repeat constructor.
  - reflexivity.
  - reflexivity.
Defined.

(** C8. A goal whose allocation list is [null] or empty is stored with
    its starting balance. *)
Theorem manual_goal_keeps_starting_balance
    (accounts : list Account.t) (goals : list Goal.t) (goal : Goal.t) :
  NoDup (Goal.id <$> goals) → goal ∈ goals →
  Goal.allocations goal = None ∨ Goal.allocations goal = Some [] →
  calculateBalances accounts goals !! Goal.id goal
  = Some (Goal.starting_balance goal).
Proof.
  intros Hnd Hin Hallocs. rewrite calculateBalances_lookup by done.
  unfold goalBalance. by destruct Hallocs as [-> | ->].
Qed.

Lemma manual_goal_keeps_starting_balance_witness :
  calculateBalances [Scenario.checking 4000] [Scenario.goalA; Scenario.goalM]
    !! Goal.id Scenario.goalM
  = Some (Goal.starting_balance Scenario.goalM).
Proof.
  apply (manual_goal_keeps_starting_balance
           [Scenario.checking 4000] [Scenario.goalA; Scenario.goalM]
           Scenario.goalM).
  - compute_done.
  - repeat constructor.
  - by left.
Defined.

(** ** The progress calculator *)

Section Progress.

Implicit Types x lo hi : number.
Implicit Types q l h : Qc.

Lemma of_Z_leb (n m : Z) : (Num.of_Z n <=? Num.of_Z m)%js = Z.leb n m.
Proof.
  unfold Num.leb, Num.of_Z. destruct (Z.leb_spec n m) as [H|H].
  - apply leb_Qc_true. by apply (proj1 (Z2Qc_inj_le n m)).
  - apply leb_Qc_false. by apply (proj1 (Z2Qc_inj_lt m n)).
Qed.

(** [Math.min(hi, Math.max(lo, x))] is the clamp of [x] to [lo, hi]. *)
Lemma min_max_clamp x l h :
  l ≤ h → Math.min (Fin h) (Math.max (Fin l) x) = Spec.clamp x (Fin l) (Fin h).
Proof.
  intros Hlh. unfold Spec.clamp, Num.gtb.
  destruct x as [q| | |]; unfold Math.max, Math.min, Num.leb, Num.ltb.
  - destruct (Num.ltb_Qc q l) eqn:Hql.
    + apply ltb_Qc_true in Hql.
      assert (Num.leb_Qc l q = false) as -> by by apply leb_Qc_false.
      destruct (Num.leb_Qc h l) eqn:Hhl; [|done].
      apply leb_Qc_true in Hhl. f_equal. by apply Qcle_antisym.
    + apply ltb_Qc_false in Hql.
      assert (Num.leb_Qc l q = true) as -> by by apply leb_Qc_true.
      destruct (Num.ltb_Qc h q) eqn:Hhq.
      * apply ltb_Qc_true in Hhq.
        by assert (Num.leb_Qc h q = true) as ->
          by by apply leb_Qc_true, Qclt_le_weak.
      * apply ltb_Qc_false in Hhq.
        destruct (Num.leb_Qc h q) eqn:Hhq'; [|done].
        apply leb_Qc_true in Hhq'. f_equal. by apply Qcle_antisym.
  - done.
  - destruct (Num.leb_Qc h l) eqn:Hhl; [|done].
    apply leb_Qc_true in Hhl. f_equal. by apply Qcle_antisym.
  - done.
Qed.

(** A clamp that is a number lies between its bounds. *)
Lemma clamp_range x l h :
  l ≤ h → ¬ Num.is_nan x →
  (Fin l <=? Spec.clamp x (Fin l) (Fin h))%js = true
  ∧ (Spec.clamp x (Fin l) (Fin h) <=? Fin h)%js = true.
Proof.
  intros Hlh Hx. unfold Spec.clamp, Num.gtb.
  destruct x as [q| | |]; [| | |by destruct Hx];
    unfold Num.leb, Num.ltb.
  - destruct (Num.ltb_Qc q l) eqn:Hql.
    + split; by apply leb_Qc_true.
    + apply ltb_Qc_false in Hql.
      destruct (Num.ltb_Qc h q) eqn:Hhq.
      * split; by apply leb_Qc_true.
      * apply ltb_Qc_false in Hhq. split; by apply leb_Qc_true.
  - split; by apply leb_Qc_true.
  - split; by apply leb_Qc_true.
Qed.

Lemma or_default_Some (c d : number) :
  Num.truthy c = true → or_default (Some c) d = c.
Proof. unfold or_default. by intros ->. Qed.

Lemma or_default_zero (c : number) :
  ¬ Num.is_nan c → or_default (Some c) Num.zero = c.
Proof.
  intros Hc. unfold or_default.
  destruct c as [q| | |]; cbn [Num.truthy]; [|done|done|by destruct Hc].
  destruct (Num.sgn q) eqn:Hq; [|done|done].
  apply sgn_Eq in Hq. by rewrite zero_Fin, Hq.
Qed.

Lemma or_default_falsy (c d : number) :
  Num.truthy c = false → or_default (Some c) d = d.
Proof. unfold or_default. by intros ->. Qed.

Lemma sub_Fin q l : (Fin q - Fin l)%js = Fin (q - l).
Proof. done. Qed.

Lemma mul_Fin q l : (Fin q * Fin l)%js = Fin (q * l).
Proof. done. Qed.

Lemma div_Fin_pos q l : 0 < l → (Fin q / Fin l)%js = Fin (q / l).
Proof.
  intros Hl. unfold Num.div. apply sgn_Gt in Hl. by rewrite Hl.
Qed.

Lemma leb_zero_false q : (Fin q <=? Num.zero)%js = false → 0 < q.
Proof. rewrite zero_Fin. unfold Num.leb. apply leb_Qc_false. Qed.

End Progress.

Lemma hundred_bounds : Qc_of_Z 0 ≤ Qc_of_Z 100.
Proof. by apply (proj1 (Z2Qc_inj_le 0 100)). Qed.

(** Scenario A: 2,000 of 10,000 is 20%.  Scenario B: (3000 - 1000) of
    (5000 - 1000) is 50%.  Scenario E: a starting balance above the target
    is 100% with nothing remaining. *)
Example scenarioA_progress :
  getProgress {[ "goal-a"%string := Num.of_Z 2000 ]} Scenario.goalA = Num.of_Z 20
  ∧ getRemainingAmount {[ "goal-a"%string := Num.of_Z 2000 ]} Scenario.goalA
    = Num.of_Z 8000.
Proof. js_eval. Qed.

Example scenarioB_progress :
  getProgress {[ "goal-b"%string := Num.of_Z 3000 ]} Scenario.goalB = Num.of_Z 50.
Proof. js_eval. Qed.

Example scenarioE_progress :
  getProgress {[ "goal-n"%string := Num.of_Z 900 ]} Scenario.goalN = Num.of_Z 100
  ∧ getRemainingAmount {[ "goal-n"%string := Num.of_Z 900 ]} Scenario.goalN
    = Num.of_Z 0.
Proof. js_eval. Qed.

(** C2. With [needed = target_amount - starting_balance], the progress of
    a goal whose current amount is [currentAmount] is 100 when
    [needed <= 0] and the clamp of
    [(currentAmount - starting_balance) / needed * 100] to [0, 100]
    otherwise; for amounts that are numbers of the ledger (finite), it lies
    between 0 and 100. *)
Theorem progress_formula_and_range
    (goalBalances : gmap string number) (goal : Goal.t) (currentAmount : number) :
  goalBalances !! Goal.id goal = Some currentAmount →
  ¬ Num.is_nan currentAmount →
  let needed := (Goal.target_amount goal - Goal.starting_balance goal)%js in
  getProgress goalBalances goal
  = (if (needed <=? Num.zero)%js then Num.of_Z 100
     else Spec.clamp
            ((currentAmount - Goal.starting_balance goal) / needed
             * Num.of_Z 100)%js
            Num.zero (Num.of_Z 100))
  ∧ (Num.is_finite currentAmount →
     Num.is_finite (Goal.target_amount goal) →
     Num.is_finite (Goal.starting_balance goal) →
     (Num.zero <=? getProgress goalBalances goal)%js = true
     ∧ (getProgress goalBalances goal <=? Num.of_Z 100)%js = true).
Proof.
  intros Hcurrent Hnan needed.
  assert (getProgress goalBalances goal
          = if (needed <=? Num.zero)%js then Num.of_Z 100
            else Spec.clamp
                   ((currentAmount - Goal.starting_balance goal) / needed
                    * Num.of_Z 100)%js
                   Num.zero (Num.of_Z 100)) as Hformula.
  { unfold getProgress. rewrite Hcurrent, or_default_zero by done.
    fold needed. destruct (needed <=? Num.zero)%js; [done|].
    apply (min_max_clamp _ _ _ hundred_bounds). }
  split; [done|]. intros Hc Ht Hs. rewrite Hformula. clear Hformula.
  destruct (needed <=? Num.zero)%js eqn:Hneeded.
  - by rewrite !of_Z_leb.
  - subst needed.
    destruct currentAmount as [c| | |], (Goal.target_amount goal) as [t| | |],
      (Goal.starting_balance goal) as [s| | |]; try done.
    rewrite !sub_Fin in *. apply leb_zero_false in Hneeded.
    rewrite div_Fin_pos by done. unfold Num.of_Z at 1 3. rewrite mul_Fin.
    apply (clamp_range _ _ _ hundred_bounds). by intros [].
Qed.

Lemma progress_formula_and_range_witness :
  (Num.zero <=? getProgress {[ "goal-a"%string := Num.of_Z 2000 ]} Scenario.goalA)%js
  = true
  ∧ (getProgress {[ "goal-a"%string := Num.of_Z 2000 ]} Scenario.goalA
     <=? Num.of_Z 100)%js = true.
Proof.
  refine (proj2 (progress_formula_and_range
                   {[ "goal-a"%string := Num.of_Z 2000 ]} Scenario.goalA
                   (Num.of_Z 2000) _ _) _ _ _).
  - vm_compute. reflexivity.
  - intros [].
  - exact I.
  - exact I.
  - exact I.
Defined.

(** ** The current-amount accessor *)

(** When every rule of a goal points at a missing account, the amount
    stored for the goal is 0. *)
Lemma all_missing_resolves_to_zero
    (accounts : list Account.t) (goals : list Goal.t) (goal : Goal.t)
    (allocs : list AccountAllocation.t) :
  NoDup (Goal.id <$> goals) → goal ∈ goals →
  Goal.allocations goal = Some allocs → allocs ≠ [] →
  Forall (fun alloc =>
            findAccount accounts (AccountAllocation.account_id alloc) = None)
         allocs →
  calculateBalances accounts goals !! Goal.id goal = Some Num.zero.
Proof.
  intros Hnd Hin Hallocs Hne Hmissing.
  rewrite calculateBalances_lookup by done.
  rewrite (goalBalance_allocated _ _ _ Hallocs Hne).
  by rewrite fold_sumAllocation_all_missing.
Qed.


(** C10. When the amount stored for a goal is exactly 0, [getCurrentAmount]
    reports the starting balance of the goal, because [||] takes its right
    operand for a falsy left operand, and [getRemainingAmount] is then
    computed from the starting balance. *)
Theorem zero_balance_reports_starting_balance
    (goalBalances : gmap string number) (goal : Goal.t) :
  goalBalances !! Goal.id goal = Some Num.zero →
  getCurrentAmount goalBalances goal = Goal.starting_balance goal
  ∧ getRemainingAmount goalBalances goal
    = Math.max Num.zero
        (Goal.target_amount goal - Goal.starting_balance goal)%js.
Proof.
  intros Hzero.
  assert (getCurrentAmount goalBalances goal = Goal.starting_balance goal)
    as Hcurrent.
  { unfold getCurrentAmount. rewrite Hzero. by apply or_default_falsy. }
  split; [done|]. unfold getRemainingAmount. by rewrite Hcurrent.
Qed.

Lemma zero_balance_reports_starting_balance_witness :
  getCurrentAmount
    (calculateBalances [Scenario.checking 3000] [Scenario.goalLost])
    Scenario.goalLost
  = Goal.starting_balance Scenario.goalLost
  ∧ getRemainingAmount
      (calculateBalances [Scenario.checking 3000] [Scenario.goalLost])
      Scenario.goalLost
    = Math.max Num.zero
        (Goal.target_amount Scenario.goalLost
         - Goal.starting_balance Scenario.goalLost)%js.
Proof.
  apply (zero_balance_reports_starting_balance
           (calculateBalances [Scenario.checking 3000] [Scenario.goalLost])
           Scenario.goalLost).
  vm_compute. reflexivity.
Defined.

(** The goal with a rule on a missing account only: the account snapshot
    gives 0, the accessor shows the 700 of the starting balance and 1,300
    remaining, while the progress is computed from 0. *)
Example goalLost_amounts :
  calculateBalances [Scenario.checking 3000] [Scenario.goalLost]
    !! "goal-l"%string = Some (Num.of_Z 0)
  ∧ getCurrentAmount
      (calculateBalances [Scenario.checking 3000] [Scenario.goalLost])
      Scenario.goalLost = Num.of_Z 700
  ∧ getRemainingAmount
      (calculateBalances [Scenario.checking 3000] [Scenario.goalLost])
      Scenario.goalLost = Num.of_Z 1300
  ∧ getProgress
      (calculateBalances [Scenario.checking 3000] [Scenario.goalLost])
      Scenario.goalLost = Num.of_Z 0.
Proof. js_eval. Qed.

(** ** The pacing analyzer *)

Section Pacing.

Variable goalBalances : gmap string number.
Variable dateTime : string → number.
Variable today : number.

Implicit Types goal : Goal.t.

Lemma targetDate_None goal :
  targetDate goal = None ↔ Spec.noTargetDate goal.
Proof.
  unfold targetDate, Spec.noTargetDate.
  destruct (Goal.target_date goal) as [s|]; [|by intuition].
  destruct (String.eqb_spec s "") as [->|Hs]; [by intuition|].
  split; [done|]. intros [?|?]; congruence.
Qed.

Lemma targetDate_Some goal s :
  Goal.target_date goal = Some s → s ≠ ""%string → targetDate goal = Some s.
Proof.
  unfold targetDate. intros -> Hs.
  by destruct (String.eqb_spec s "").
Qed.

Lemma getDaysRemaining_None goal :
  getDaysRemaining dateTime today goal = None ↔ Spec.noTargetDate goal.
Proof.
  rewrite <- targetDate_None. unfold getDaysRemaining.
  by destruct (targetDate goal).
Qed.

(** With a window of zero days the expected progress is an infinity or
    [NaN], whatever the number of days remaining. *)
Lemma zero_window_expected_not_finite goal target_date (days : number) :
  totalDays dateTime goal target_date = Num.zero →
  ¬ Num.is_finite (expectedProgress dateTime goal target_date days).
Proof.
  unfold expectedProgress. intros ->. rewrite zero_Fin.
  assert (Num.sgn 0 = Eq) as H0 by by apply sgn_Eq.
  assert (Num.sgn (Qc_of_Z 100) = Gt) as H100 by reflexivity.
  destruct days as [d| | |]; unfold Num.sub, Num.add, Num.neg, Num.div;
    rewrite ?H0; unfold Num.of_Z, Num.mul; rewrite ?H100; cbn; try tauto.
  destruct (Num.sgn (0 + - d)); cbn; tauto.
Qed.

End Pacing.

(** C9. Without a target date (a [null] or empty [target_date]) the days
    remaining, the monthly amount needed and the on-track flag are all
    [null]. *)
Theorem no_target_date_no_pacing
    (goalBalances : gmap string number) (dateTime : string → number)
    (today : number) (goal : Goal.t) :
  Spec.noTargetDate goal →
  getDaysRemaining dateTime today goal = None
  ∧ getMonthlyNeeded goalBalances dateTime today goal = None
  ∧ isOnTrack goalBalances dateTime today goal = None.
Proof.
  intros Hno. apply targetDate_None in Hno.
  unfold getMonthlyNeeded, isOnTrack, getDaysRemaining. by rewrite Hno.
Qed.

Lemma no_target_date_no_pacing_witness :
  getDaysRemaining Scenario.dateTime Scenario.today Scenario.goalA = None
  ∧ getMonthlyNeeded ∅ Scenario.dateTime Scenario.today Scenario.goalA = None
  ∧ isOnTrack ∅ Scenario.dateTime Scenario.today Scenario.goalA = None.
Proof.
  apply (no_target_date_no_pacing ∅ Scenario.dateTime Scenario.today
           Scenario.goalA).
  left. reflexivity.
Defined.

(** C7. The monthly amount needed is [null] exactly when the goal has no
    target date or its days remaining are [<= 0]; otherwise it is
    [remaining / (daysRemaining / 30)]. *)
Theorem monthly_needed_formula
    (goalBalances : gmap string number) (dateTime : string → number)
    (today : number) (goal : Goal.t) :
  (getMonthlyNeeded goalBalances dateTime today goal = None
   ↔ Spec.noTargetDate goal
     ∨ ∃ days, getDaysRemaining dateTime today goal = Some days
               ∧ (days <=? Num.zero)%js = true)
  ∧ ∀ days,
      getDaysRemaining dateTime today goal = Some days →
      (days <=? Num.zero)%js = false →
      getMonthlyNeeded goalBalances dateTime today goal
      = Some (getRemainingAmount goalBalances goal / (days / Num.of_Z 30))%js.
Proof.
  unfold getMonthlyNeeded.
  pose proof (getDaysRemaining_None dateTime today goal) as Hnone.
  destruct (getDaysRemaining dateTime today goal) as [days|].
  - split.
    + destruct (days <=? Num.zero)%js eqn:Hdays; split.
      * intros _. right. by exists days.
      * done.
      * done.
      * intros [Hno|(days' & [= <-] & Hle)]; [|congruence].
        apply Hnone in Hno. congruence.
    + by intros days' [= <-] ->.
  - split; [|done]. split; [|done]. intros _. left. by apply Hnone.
Qed.

Lemma monthly_needed_formula_witness :
  getMonthlyNeeded Scenario.balancesC Scenario.dateTime Scenario.today
    Scenario.goalC
  = Some (getRemainingAmount Scenario.balancesC Scenario.goalC
          / (Num.of_Z 30 / Num.of_Z 30))%js.
Proof.
  apply (proj2 (monthly_needed_formula Scenario.balancesC Scenario.dateTime
                  Scenario.today Scenario.goalC) (Num.of_Z 30)).
  - js_eval.
  - vm_compute. reflexivity.
Defined.

(** Scenario C in numbers: 30 days remain of a window of 90, the expected
    progress is 200/3 (about 66.7%), and 6,000 in one month are needed. *)
Example scenarioC_pacing :
  getDaysRemaining Scenario.dateTime Scenario.today Scenario.goalC
  = Some (Num.of_Z 30)
  ∧ totalDays Scenario.dateTime Scenario.goalC "2025-04-01T00:00:00.000Z"
    = Num.of_Z 90
  ∧ expectedProgress Scenario.dateTime Scenario.goalC
      "2025-04-01T00:00:00.000Z" (Num.of_Z 30)
    = (Num.of_Z 200 / Num.of_Z 3)%js
  ∧ getProgress Scenario.balancesC Scenario.goalC = Num.of_Z 40
  ∧ getMonthlyNeeded Scenario.balancesC Scenario.dateTime Scenario.today
      Scenario.goalC
    = Some (Num.of_Z 6000).
Proof. js_eval. Qed.

(** C3. For a goal with a target date whose window
    [totalDays = (target_date - created_at) / 1 day] is positive, the
    on-track flag is [actualProgress >= expectedProgress - 5] with
    [expectedProgress = (totalDays - daysRemaining) / totalDays * 100]. *)
Theorem on_track_formula
    (goalBalances : gmap string number) (dateTime : string → number)
    (today : number) (goal : Goal.t) (target_date : string)
    (daysRemaining : number) :
  Goal.target_date goal = Some target_date → target_date ≠ ""%string →
  getDaysRemaining dateTime today goal = Some daysRemaining →
  let totalDays :=
    ((dateTime target_date - dateTime (Goal.created_at goal)) / msPerDay)%js in
  (Num.zero <? totalDays)%js = true →
  let expectedProgress :=
    ((totalDays - daysRemaining) / totalDays * Num.of_Z 100)%js in
  let actualProgress := getProgress goalBalances goal in
  isOnTrack goalBalances dateTime today goal
  = Some (actualProgress >=? expectedProgress - Num.of_Z 5)%js.
Proof.
  intros Hdate Hne Hdays totalDays' _ expected actual.
  unfold isOnTrack. by rewrite (targetDate_Some _ _ Hdate Hne), Hdays.
Qed.

(** Scenario C: created 60 days ago, due in 30 days, 40% saved: the goal
    is not on track. *)
Lemma on_track_formula_witness :
  isOnTrack Scenario.balancesC Scenario.dateTime Scenario.today Scenario.goalC
  = Some false.
Proof.
  rewrite (on_track_formula Scenario.balancesC Scenario.dateTime
             Scenario.today Scenario.goalC "2025-04-01T00:00:00.000Z"
             (Num.of_Z 30)).
  - vm_compute. reflexivity.
  - reflexivity.
  - discriminate.
  - js_eval.
  - vm_compute. reflexivity.
Defined.

(** The same goal in numbers: the window has 0 days, the expected progress
    is [0 / 0 * 100 = NaN] and the flag is [false] at 100%; looked at one
    day earlier the expected progress is [-Infinity] and the flag is
    [true] at 0%. *)
Example zero_window_samples :
  totalDays Scenario.dateTime Scenario.goalD "2025-01-01T00:00:00.000Z"
  = Num.of_Z 0
  ∧ getDaysRemaining Scenario.dateTime Scenario.todayD Scenario.goalD
    = Some (Num.of_Z 0)
  ∧ expectedProgress Scenario.dateTime Scenario.goalD
      "2025-01-01T00:00:00.000Z" (Num.of_Z 0) = NaN
  ∧ getProgress {[ "goal-d"%string := Num.of_Z 5000 ]} Scenario.goalD
    = Num.of_Z 100
  ∧ isOnTrack {[ "goal-d"%string := Num.of_Z 5000 ]} Scenario.dateTime
      Scenario.todayD Scenario.goalD = Some false
  ∧ expectedProgress Scenario.dateTime Scenario.goalD
      "2025-01-01T00:00:00.000Z" (Num.of_Z 1) = NegInf
  ∧ isOnTrack ∅ Scenario.dateTime (Scenario.todayD - msPerDay)%js
      (Scenario.goal "goal-d" 5000 (Some "2025-01-01T00:00:00.000Z"%string)
         None 0 false)
    = Some true.
Proof. js_eval. Qed.

(** ** The goal aggregator *)





(** ** Editing the allocations of a goal *)

Section Allocations.

Variable accounts : list Account.t.

Implicit Types allocs : list AccountAllocation.t.
Implicit Types goal : Goal.t.

Local Abbreviation wellLinked := (wellLinked accounts).

Lemma filterFrom_delete {A} (l : list A) (i index : nat) :
  filterFrom (fun _ j => negb (Nat.eqb j index)) i l
  = if decide (i ≤ index)%nat then delete (index - i)%nat l else l.
Proof.
  revert i. induction l as [|x l IH]; intros i.
  - by case_decide.
  - cbn [filterFrom]. rewrite IH. destruct (Nat.eqb_spec i index) as [->|Hne].
    + cbn [negb]. rewrite Nat.sub_diag.
      rewrite decide_False by lia. by rewrite decide_True by lia.
    + cbn [negb]. destruct (decide (i ≤ index)%nat) as [Hle|Hgt].
      * rewrite decide_True by lia.
        by replace (index - i)%nat with (S (index - S i)) by lia.
      * by rewrite decide_False by lia.
Qed.

Lemma delete_ge {A} (l : list A) (index : nat) :
  (length l ≤ index)%nat → delete index l = l.
Proof.
  intros Hge. rewrite delete_take_drop, take_ge, drop_ge by lia.
  apply app_nil_r.
Qed.

Lemma Array_filter_delete {A} (l : list A) (index : nat) :
  Array_filter (fun _ j => negb (Nat.eqb j index)) l = delete index l.
Proof.
  unfold Array_filter. rewrite filterFrom_delete, decide_True by lia.
  by rewrite Nat.sub_0_r.
Qed.

Lemma elem_of_usedIds allocs (id : string) :
  id ∈ usedIds allocs ↔ id ∈ AccountAllocation.account_id <$> allocs.
Proof. unfold usedIds. apply elem_of_list_to_set. Qed.

Lemma findAvailable_Some allocs available :
  findAvailable accounts allocs = Some available →
  available ∈ accounts
  ∧ (Account.account_id available ∉ AccountAllocation.account_id <$> allocs)
  ∧ findAccount accounts (Account.account_id available) = Some available.
Proof.
  unfold findAvailable, findAccount.
  induction accounts as [|a accs IH]; [done|]. cbn [List.find].
  destruct (decide (Account.account_id a ∈ usedIds allocs)) as [Hin|Hnin].
  - rewrite bool_decide_eq_true_2 by done. cbn [negb]. intros Hfind.
    destruct (IH Hfind) as (Hacc & Hfree & Hfirst).
    split; [by right|]. split; [done|].
    destruct (String.eqb_spec (Account.account_id a)
                (Account.account_id available)) as [Heq|_]; [|done].
    rewrite Heq in Hin. by apply elem_of_usedIds in Hin.
  - rewrite bool_decide_eq_false_2 by done. cbn [negb]. intros [= <-].
    split; [by left|]. split; [by rewrite <- elem_of_usedIds|].
    by rewrite String.eqb_refl.
Qed.

Lemma findAvailable_None allocs :
  findAvailable accounts allocs = None ↔
  ∀ a, a ∈ accounts →
       Account.account_id a ∈ AccountAllocation.account_id <$> allocs.
Proof.
  unfold findAvailable. split.
  - intros Hnone a Ha. apply list_elem_of_In in Ha.
    pose proof (find_none _ _ Hnone a Ha) as Hused. cbn in Hused.
    apply negb_false_iff, bool_decide_eq_true_1 in Hused.
    by apply elem_of_usedIds.
  - intros Hall. destruct (List.find _ accounts) as [a|] eqn:Hfind; [|done].
    apply find_some in Hfind as [Ha Hfree]. apply list_elem_of_In in Ha.
    apply negb_true_iff, bool_decide_eq_false_1 in Hfree.
    destruct Hfree. by apply elem_of_usedIds, Hall.
Qed.

Lemma wellLinked_snoc allocs available :
  wellLinked allocs → findAvailable accounts allocs = Some available →
  wellLinked (allocs ++ [wholeAccount available]).
Proof.
  intros [Hnd Hex] Hfind.
  apply findAvailable_Some in Hfind as (_ & Hfree & Hfirst). split.
  - rewrite fmap_app. apply NoDup_app. split; [done|]. split.
    + intros id Hid Hid'. cbn in Hid'. apply list_elem_of_singleton in Hid'.
      by subst.
    + apply NoDup_singleton.
  - apply Forall_app. split; [done|]. apply Forall_singleton. cbn.
    by rewrite Hfirst.
Qed.

Lemma wellLinked_delete allocs (index : nat) :
  wellLinked allocs → wellLinked (delete index allocs).
Proof.
  intros [Hnd Hex]. split.
  - eapply sublist_NoDup; [exact Hnd|]. apply fmap_sublist, sublist_delete.
  - rewrite Forall_forall in Hex. apply Forall_forall. intros alloc Hin.
    apply Hex. eapply elem_of_sublist; [exact Hin|]. apply sublist_delete.
Qed.

Lemma addAllocation_nonempty allocs :
  accounts ≠ [] →
  addAllocation accounts allocs
  = match findAvailable accounts allocs with
    | None => (allocs, Some (toast_warning "All accounts already allocated"))
    | Some available => (allocs ++ [wholeAccount available], None)
    end.
Proof. unfold addAllocation. by destruct accounts. Qed.

Lemma addAllocation_no_accounts allocs :
  addAllocation [] allocs = (allocs, None).
Proof. done. Qed.

Lemma addAllocation_keeps_wellLinked allocs :
  wellLinked allocs → wellLinked (addAllocation accounts allocs).1.
Proof.
  intros Hwell. destruct (decide (accounts = [])) as [Hnil|Hne].
  - rewrite Hnil in Hwell |- *. by rewrite addAllocation_no_accounts.
  - rewrite addAllocation_nonempty by done.
    destruct (findAvailable accounts allocs) as [available|] eqn:Hfind.
    + by apply wellLinked_snoc.
    + done.
Qed.

(** The identifiers of the accounts of the snapshot. *)
Local Abbreviation accountIds :=
  (list_to_set (Account.account_id <$> accounts) : gset string).

Lemma wellLinked_usedIds allocs :
  wellLinked allocs →
  usedIds allocs ⊆ accountIds ∧ size (usedIds allocs) = length allocs.
Proof.
  intros [Hnd Hex]. split.
  - intros id Hid. apply elem_of_usedIds in Hid.
    apply list_elem_of_fmap in Hid as (alloc & -> & Hin).
    rewrite Forall_forall in Hex. destruct (Hex _ Hin) as [a Ha].
    unfold findAccount in Ha. apply find_some in Ha as [Hina Heq].
    apply String.eqb_eq in Heq. apply elem_of_list_to_set, list_elem_of_fmap.
    exists a. split; [done|]. by apply list_elem_of_In.
  - unfold usedIds. rewrite size_list_to_set by done. by rewrite length_fmap.
Qed.

(** A press on "Add Account" adds a rule as long as fewer rules than
    distinct accounts are on the form. *)
Lemma addAllocation_length allocs :
  wellLinked allocs →
  length (addAllocation accounts allocs).1
  = if decide (length allocs < size accountIds)%nat
    then S (length allocs) else length allocs.
Proof.
  intros Hwell. destruct (wellLinked_usedIds _ Hwell) as [Hsub Hsize].
  destruct (decide (accounts = [])) as [Hnil|Hne].
  - rewrite Hnil. cbn. rewrite decide_False; [done|].
    rewrite size_empty. lia.
  - rewrite addAllocation_nonempty by done.
    destruct (findAvailable accounts allocs) as [available|] eqn:Hfind; cbn.
    + apply findAvailable_Some in Hfind as (Hin & Hfree & _).
      rewrite length_app. cbn. rewrite decide_True; [lia|].
      rewrite <- Hsize. apply subset_size. split; [done|].
      intros Hall. apply Hfree, elem_of_usedIds, Hall.
      apply elem_of_list_to_set, list_elem_of_fmap. by exists available.
    + rewrite decide_False; [done|]. rewrite <- Hsize.
      apply Nat.le_ngt, subseteq_size. intros id Hid.
      apply elem_of_list_to_set, list_elem_of_fmap in Hid as (a & -> & Ha).
      apply elem_of_usedIds. by apply (findAvailable_None allocs).
Qed.

Lemma addAllocation_iter (n : nat) :
  wellLinked (Nat.iter n (fun l => (addAllocation accounts l).1) [])
  ∧ length (Nat.iter n (fun l => (addAllocation accounts l).1) [])
    = Nat.min n (size accountIds).
Proof.
  induction n as [|n [IHwell IHlen]].
  - cbn. split; [|done]. split; [apply NoDup_nil_2|apply Forall_nil_2].
  - rewrite !Nat.iter_succ. split; [by apply addAllocation_keeps_wellLinked|].
    rewrite addAllocation_length by done. rewrite IHlen.
    case_decide; lia.
Qed.

End Allocations.

(** X1. [addAllocation] leaves the list as it is exactly when every
    account of the snapshot already has a rule (in particular when there is
    no account), and warns exactly when there are accounts and all of them
    have one.  Otherwise it appends one rule: 100 percent of an account of
    the snapshot that had no rule, and that rule resolves to this account. *)
Theorem addAllocation_first_free
    (accounts : list Account.t) (allocs : list AccountAllocation.t) :
  ((addAllocation accounts allocs).1 = allocs
   ↔ ∀ a, a ∈ accounts →
          Account.account_id a ∈ AccountAllocation.account_id <$> allocs)
  ∧ ((addAllocation accounts allocs).2
     = Some (toast_warning "All accounts already allocated")
     ↔ accounts ≠ []
       ∧ ∀ a, a ∈ accounts →
              Account.account_id a ∈ AccountAllocation.account_id <$> allocs)
  ∧ ((addAllocation accounts allocs).1 ≠ allocs →
     ∃ available,
       addAllocation accounts allocs
       = (allocs ++ [AccountAllocation.mk (Account.account_id available)
                       percentage (Num.of_Z 100)], None)
       ∧ available ∈ accounts
       ∧ (Account.account_id available
          ∉ AccountAllocation.account_id <$> allocs)
       ∧ findAccount accounts (Account.account_id available)
         = Some available).
Proof.
  destruct (decide (accounts = [])) as [->|Hne].
  - rewrite addAllocation_no_accounts. cbn. split; [|split].
    + split; [|done]. intros _ a Ha. by apply elem_of_nil in Ha.
    + split; [done|]. by intros [[] _].
    + done.
  - rewrite addAllocation_nonempty by done.
    pose proof (findAvailable_None accounts allocs) as Hnone.
    pose proof (findAvailable_Some accounts allocs) as Hsome.
    destruct (findAvailable accounts allocs) as [available|]; cbn.
    + destruct (Hsome available eq_refl) as (Hin & Hfree & Hfirst).
      assert (allocs ++ [wholeAccount available] ≠ allocs) as Hgrow.
      { intros Heq. apply (f_equal length) in Heq.
        rewrite length_app in Heq. cbn in Heq. lia. }
      split; [|split].
      * split; [done|]. intros Hall. by apply Hnone in Hall.
      * split; [done|]. intros [_ Hall]. by apply Hnone in Hall.
      * intros _. by exists available.
    + split; [|split].
      * split; [|done]. intros _. by apply Hnone.
      * split; [|done]. intros _. split; [done|by apply Hnone].
      * done.
Qed.

Lemma addAllocation_first_free_witness :
  ∃ available,
    addAllocation Sample.accounts Sample.oneRule
    = (Sample.oneRule
       ++ [AccountAllocation.mk (Account.account_id available)
             percentage (Num.of_Z 100)], None)
    ∧ available ∈ Sample.accounts
    ∧ (Account.account_id available
       ∉ AccountAllocation.account_id <$> Sample.oneRule)
    ∧ findAccount Sample.accounts (Account.account_id available)
      = Some available.
Proof.
  apply (proj2 (proj2 (addAllocation_first_free Sample.accounts
                         Sample.oneRule))).
  vm_compute. discriminate.
Defined.

(** X2. [addAllocation] keeps the rules of the form on pairwise distinct
    accounts of the snapshot. *)
Theorem addAllocation_wellLinked
    (accounts : list Account.t) (allocs : list AccountAllocation.t) :
  wellLinked accounts allocs →
  wellLinked accounts (addAllocation accounts allocs).1.
Proof.
  apply addAllocation_keeps_wellLinked.
Qed.

Lemma addAllocation_wellLinked_witness :
  wellLinked Sample.accounts (addAllocation Sample.accounts Sample.oneRule).1.
Proof.
  apply (addAllocation_wellLinked Sample.accounts Sample.oneRule).
  split.
  - compute_done.
  - repeat constructor. by eexists.
Defined.

(** X3. [removeAllocation] deletes the rule at the given index and
    nothing else: an index in range shortens the list by one, an index out
    of range leaves it as it is, and the rules stay on pairwise distinct
    accounts of the snapshot. *)
Theorem removeAllocation_delete
    (accounts : list Account.t) (index : nat)
    (allocs : list AccountAllocation.t) :
  removeAllocation index allocs = delete index allocs
  ∧ ((index < length allocs)%nat →
     S (length (removeAllocation index allocs)) = length allocs)
  ∧ ((length allocs ≤ index)%nat → removeAllocation index allocs = allocs)
  ∧ (wellLinked accounts allocs →
     wellLinked accounts (removeAllocation index allocs)).
Proof.
  unfold removeAllocation. rewrite Array_filter_delete.
  split; [done|]. split; [|split].
  - intros Hlt. rewrite length_delete; [lia|]. by apply lookup_lt_is_Some_2.
  - intros Hge. apply delete_ge. lia.
  - apply wellLinked_delete.
Qed.

Lemma removeAllocation_delete_witness :
  S (length (removeAllocation 0 Sample.bothRules)) = length Sample.bothRules.
Proof.
  apply (proj1 (proj2 (removeAllocation_delete Sample.accounts 0
                         Sample.bothRules))).
  vm_compute. lia.
Defined.

(** X4. Removing the rule that [addAllocation] has just appended gives the
    list back. *)
Theorem removeAllocation_addAllocation
    (accounts : list Account.t) (allocs : list AccountAllocation.t) :
  removeAllocation (length allocs) (addAllocation accounts allocs).1 = allocs.
Proof.
  unfold removeAllocation. rewrite Array_filter_delete.
  destruct (decide (accounts = [])) as [->|Hne].
  - cbn. apply delete_ge. lia.
  - rewrite addAllocation_nonempty by done.
    destruct (findAvailable accounts allocs); cbn.
    + rewrite delete_middle. by rewrite app_nil_r.
    + apply delete_ge. lia.
Qed.

(** X5. Starting from the empty form, [n] presses on "Add Account" leave
    [min n d] rules, [d] being the number of distinct account identifiers
    of the snapshot, and these rules are on pairwise distinct accounts of
    the snapshot: every account gets at most one rule and further presses
    add nothing. *)
Theorem addAllocation_saturates (accounts : list Account.t) (n : nat) :
  let allocs := Nat.iter n (fun l => (addAllocation accounts l).1) [] in
  wellLinked accounts allocs
  ∧ length allocs
    = Nat.min n (size (list_to_set (Account.account_id <$> accounts)
                       : gset string)).
Proof. apply addAllocation_iter. Qed.

(** X6. [addEditAllocation] changes the rules of the goal as
    [addAllocation] changes those of the form, a [null] list counting as
    empty; the list is never [null] afterwards and the identifier, the
    amounts and the flags of the goal are kept.  The toasts agree unless
    there is no account at all, where only [addEditAllocation] warns. *)
Theorem addEditAllocation_as_addAllocation
    (accounts : list Account.t) (goal : Goal.t) :
  let allocs := default [] (Goal.allocations goal) in
  Goal.allocations (addEditAllocation accounts goal).1
  = Some (addAllocation accounts allocs).1
  ∧ (if decide (accounts = [])
     then (addEditAllocation accounts goal).2
          = Some (toast_warning "All accounts already allocated")
          ∧ (addAllocation accounts allocs).2 = None
     else (addEditAllocation accounts goal).2
          = (addAllocation accounts allocs).2)
  ∧ Goal.id (addEditAllocation accounts goal).1 = Goal.id goal
  ∧ Goal.target_amount (addEditAllocation accounts goal).1
    = Goal.target_amount goal
  ∧ Goal.starting_balance (addEditAllocation accounts goal).1
    = Goal.starting_balance goal
  ∧ Goal.completed (addEditAllocation accounts goal).1 = Goal.completed goal.
Proof.
  intros allocs. unfold addEditAllocation.
  assert (match Goal.allocations goal with
          | Some allocations => allocations
          | None => []
          end = allocs) as -> by (subst allocs; by destruct (Goal.allocations goal)).
  destruct (decide (accounts = [])) as [->|Hne].
  - by rewrite addAllocation_no_accounts.
  - rewrite addAllocation_nonempty by done.
    by destruct (findAvailable accounts allocs).
Qed.

(** X7. [removeEditAllocation] deletes the rule at the index from the
    rules of the goal and leaves a [null] list as it is.  Removing the only
    rule of a goal leaves an empty list, for which [calculateBalances]
    stores the starting balance: the goal is tracked manually again. *)
Theorem removeEditAllocation_delete
    (accounts : list Account.t) (goal : Goal.t) (index : nat) :
  Goal.allocations (removeEditAllocation goal index)
  = delete index <$> Goal.allocations goal
  ∧ Goal.id (removeEditAllocation goal index) = Goal.id goal
  ∧ Goal.starting_balance (removeEditAllocation goal index)
    = Goal.starting_balance goal
  ∧ (∀ alloc,
       Goal.allocations goal = Some [alloc] →
       calculateBalances accounts [removeEditAllocation goal 0]
         !! Goal.id goal
       = Some (Goal.starting_balance goal)).
Proof.
  unfold removeEditAllocation.
  destruct (Goal.allocations goal) as [allocs|] eqn:Hallocs; cbn.
  - rewrite Array_filter_delete. repeat split.
    intros alloc [= ->]. unfold calculateBalances. cbn.
    by rewrite lookup_insert_eq.
  - repeat split; try by rewrite Hallocs. intros alloc [=].
Qed.

Lemma removeEditAllocation_delete_witness :
  calculateBalances Sample.accounts [removeEditAllocation Scenario.goalA 0]
    !! Goal.id Scenario.goalA
  = Some (Goal.starting_balance Scenario.goalA).
Proof.
  apply (proj2 (proj2 (proj2 (removeEditAllocation_delete Sample.accounts
                                Scenario.goalA 0)))
           (Scenario.rule "acct-1" percentage 50)).
  reflexivity.
Defined.

(** ** Creating a goal *)

Lemma or_string_nonempty (s d : string) : d ≠ ""%string → or_string s d ≠ ""%string.
Proof.
  intros Hd. unfold or_string. by destruct (String.eqb_spec s "").
Qed.

Lemma or_default_same (amount : number) : or_default (Some amount) amount = amount.
Proof. unfold or_default. by destruct (Num.truthy amount). Qed.

Lemma createGoal_inl (accounts : list Account.t) (id : string) (form : Form.t)
    (values : Insert.t) :
  createGoal accounts id form = inl values →
  Form.newGoalName form ≠ ""%string
  ∧ Num.truthy (Form.newGoalTargetAmount form) = true
  ∧ values
    = Insert.mk id (Form.newGoalName form) (Form.newGoalTargetAmount form)
        (match Form.newGoalTargetDate form with
         | Some date => if String.eqb date "" then None else Some date
         | None => None
         end)
        (match Form.newGoalAllocations form with
         | [] => None
         | _ => Some (Form.newGoalAllocations form)
         end)
        (fold_left (sumAllocation accounts) (Form.newGoalAllocations form)
           Num.zero)
        (or_string (Form.newGoalIcon form) "🎯")
        (or_string (Form.newGoalColor form) "#3b82f6").
Proof.
  unfold createGoal.
  destruct (String.eqb_spec (Form.newGoalName form) "") as [?|Hname]; [done|].
  destruct (Num.truthy (Form.newGoalTargetAmount form)); [|done].
  cbn. by intros [= <-].
Qed.

(** X8. [createGoal] refuses the form, with the toast "Name and target
    amount are required", exactly when the name is empty or the target
    amount is 0 or [NaN].  The values it inserts otherwise carry the drawn
    identifier, a name, an icon and a color that are not empty, a target
    amount other than 0, and neither an empty target date nor an empty
    list of allocations (both are written as [NULL]). *)
Theorem createGoal_inserts
    (accounts : list Account.t) (id : string) (form : Form.t) :
  (createGoal accounts id form
   = inr (toast_error "Name and target amount are required")
   ↔ Form.newGoalName form = ""%string
     ∨ Num.truthy (Form.newGoalTargetAmount form) = false)
  ∧ (∀ toast, createGoal accounts id form = inr toast →
              toast = toast_error "Name and target amount are required")
  ∧ ∀ values,
      createGoal accounts id form = inl values →
      Insert.id values = id
      ∧ Insert.name values ≠ ""%string
      ∧ Num.truthy (Insert.target_amount values) = true
      ∧ Insert.icon values ≠ ""%string
      ∧ Insert.color values ≠ ""%string
      ∧ Insert.target_date values ≠ Some ""%string
      ∧ Insert.allocations values ≠ Some [].
Proof.
  split; [|split].
  - unfold createGoal.
    destruct (String.eqb_spec (Form.newGoalName form) "") as [Hname|Hname].
    + cbn. by intuition.
    + destruct (Num.truthy (Form.newGoalTargetAmount form)); cbn.
      * split; [done|]. by intros [?|?].
      * by intuition.
  - unfold createGoal. intros toast.
    destruct (_ || _); [by intros [= <-]|done].
  - intros values Hvalues.
    apply createGoal_inl in Hvalues as (Hname & Htarget & ->). cbn.
    repeat split; try done.
    + by apply or_string_nonempty.
    + by apply or_string_nonempty.
    + destruct (Form.newGoalTargetDate form) as [date|]; [|done].
      destruct (String.eqb_spec date ""); [done|]. by intros [= ->].
    + by destruct (Form.newGoalAllocations form).
Qed.

Lemma createGoal_inserts_witness :
  ∃ values,
    createGoal Sample.accounts "goal-car" Sample.form = inl values
    ∧ Insert.id values = "goal-car"%string
    ∧ Insert.name values ≠ ""%string
    ∧ Num.truthy (Insert.target_amount values) = true
    ∧ Insert.icon values ≠ ""%string
    ∧ Insert.color values ≠ ""%string
    ∧ Insert.target_date values ≠ Some ""%string
    ∧ Insert.allocations values ≠ Some [].
Proof.
  eexists. split; [reflexivity|].
  apply (proj2 (proj2 (createGoal_inserts Sample.accounts "goal-car"
                         Sample.form))).
  reflexivity.
Defined.

(** X9. The starting balance that [createGoal] inserts is the amount that
    [calculateBalances] computes in the same snapshot of the accounts for
    a goal holding the inserted allocations and starting balance.  For
    such a goal [getCurrentAmount] is the starting balance, and with finite
    amounts its progress is 0 when the target exceeds the starting balance
    and 100 otherwise. *)
Theorem createGoal_starting_balance
    (accounts : list Account.t) (id : string) (form : Form.t)
    (values : Insert.t) (goals : list Goal.t) (goal : Goal.t) :
  createGoal accounts id form = inl values →
  NoDup (Goal.id <$> goals) → goal ∈ goals →
  Goal.allocations goal = Insert.allocations values →
  Goal.starting_balance goal = Insert.starting_balance values →
  let goalBalances := calculateBalances accounts goals in
  goalBalances !! Goal.id goal = Some (Insert.starting_balance values)
  ∧ getCurrentAmount goalBalances goal = Goal.starting_balance goal
  ∧ (Num.is_finite (Goal.starting_balance goal) →
     Num.is_finite (Goal.target_amount goal) →
     getProgress goalBalances goal
     = if (Goal.target_amount goal - Goal.starting_balance goal
           <=? Num.zero)%js
       then Num.of_Z 100 else Num.zero).
Proof.
  intros Hcreate Hnd Hin Hallocs Hstart goalBalances.
  apply createGoal_inl in Hcreate as (_ & _ & ->). cbn in Hallocs, Hstart |- *.
  assert (goalBalances !! Goal.id goal = Some (Goal.starting_balance goal))
    as Hstored.
  { subst goalBalances. rewrite calculateBalances_lookup by done.
    unfold goalBalance. rewrite Hallocs, Hstart.
    by destruct (Form.newGoalAllocations form). }
  split; [by rewrite <- Hstart|]. split.
  - unfold getCurrentAmount. rewrite Hstored. apply or_default_same.
  - intros Hs Ht. unfold getProgress. rewrite Hstored.
    destruct (Goal.starting_balance goal) as [s| | |]; [|done..].
    destruct (Goal.target_amount goal) as [t| | |]; [|done..].
    rewrite or_default_zero by (by intros []).
    destruct (Fin t - Fin s <=? Num.zero)%js eqn:Hneeded; [done|].
    rewrite !sub_Fin in *. apply leb_zero_false in Hneeded.
    rewrite div_Fin_pos by done. unfold Num.of_Z at 2. rewrite mul_Fin.
    replace (s - s) with 0 by (symmetry; apply Qcplus_opp_r).
    unfold Qcdiv. rewrite !Qcmult_0_l. js_eval.
Qed.

Lemma createGoal_starting_balance_witness :
  getCurrentAmount (calculateBalances Sample.accounts [Sample.carGoal])
    Sample.carGoal
  = Goal.starting_balance Sample.carGoal.
Proof.
  refine (proj1 (proj2 (createGoal_starting_balance Sample.accounts "goal-car"
            Sample.form
            (Insert.mk "goal-car" "New Car" (Num.of_Z 8000)
               (Some "2025-04-01T00:00:00.000Z"%string) (Some Sample.bothRules)
               (fold_left (sumAllocation Sample.accounts) Sample.bothRules
                  Num.zero)
               "🎯" "#f59e0b")
            [Sample.carGoal] Sample.carGoal _ _ _ _ _))).
  - reflexivity.
  - compute_done.
  - repeat constructor.
  - reflexivity.
  - js_eval.
Defined.

(** The form of the sample: 500 and a quarter of 1,200 are 800, and the
    goal created from it starts at 0%. *)
Example sample_createGoal :
  (Insert.starting_balance <$>
     match createGoal Sample.accounts "goal-car" Sample.form with
     | inl values => Some values
     | inr _ => None
     end) = Some (Num.of_Z 800)
  ∧ getProgress (calculateBalances Sample.accounts [Sample.carGoal])
      Sample.carGoal = Num.of_Z 0.
Proof. js_eval. Qed.

(** ** Escaping *)

Lemma append_empty (s : string) : String.append "" s = s.
Proof. reflexivity. Qed.

Lemma append_String (c : ascii) (s1 s2 : string) :
  String.append (String c s1) s2 = String c (String.append s1 s2).
Proof. reflexivity. Qed.

Lemma readBody_String (c : ascii) (s : string) :
  c ≠ quote →
  Sql.readBody (String c s)
  = prod_map (String c) (fun r => r) <$> Sql.readBody s.
Proof.
  intros Hc. cbn [Sql.readBody]. by destruct (Ascii.eqb_spec c quote).
Qed.

Lemma readBody_quote_quote (s : string) :
  Sql.readBody (String quote (String quote s))
  = prod_map (String quote) (fun r => r) <$> Sql.readBody s.
Proof. reflexivity. Qed.

Lemma readBody_quote_end (rest : string) :
  Sql.noQuoteAhead rest → Sql.readBody (String quote rest) = Some (""%string, rest).
Proof.
  intros Hrest. destruct rest as [|c' rest']; [done|].
  cbn in Hrest. cbn [Sql.readBody]. rewrite Ascii.eqb_refl.
  by destruct (Ascii.eqb_spec c' quote).
Qed.

Lemma readBody_escapeSql (str rest : string) :
  Sql.noQuoteAhead rest →
  Sql.readBody (String.append (escapeSql str) (String quote rest))
  = Some (str, rest).
Proof.
  intros Hrest. induction str as [|c str IH].
  - cbn [escapeSql]. rewrite append_empty. by apply readBody_quote_end.
  - cbn [escapeSql]. destruct (Ascii.eqb_spec c quote) as [->|Hc].
    + rewrite !append_String, readBody_quote_quote. by rewrite IH.
    + rewrite append_String, readBody_String by done. by rewrite IH.
Qed.

(** X10. A string escaped by [escapeSql] and put between quotes, as
    [createGoal] and [updateGoal] do with the name of a goal, reads back
    as an SQL string literal whose value is the string itself, and the
    statement goes on right after the closing quote: no quote of the name
    ends the literal early. *)
Theorem escapeSql_literal (str rest : string) :
  Sql.noQuoteAhead rest →
  Sql.readLiteral
    (String quote (String.append (escapeSql str) (String quote rest)))
  = Some (str, rest).
Proof.
  intros Hrest. unfold Sql.readLiteral.
  rewrite Ascii.eqb_refl. by apply readBody_escapeSql.
Qed.

Lemma escapeSql_literal_witness :
  Sql.readLiteral
    (String quote (String.append (escapeSql "Mom's car")
                     (String quote ", 8000")))
  = Some ("Mom's car"%string, ", 8000"%string).
Proof.
  apply (escapeSql_literal "Mom's car" ", 8000"). cbn. discriminate.
Defined.

(** The name of the sample, escaped and unescaped between quotes: without
    the escape the literal ends at the quote of the name. *)
Example escapeSql_sample :
  escapeSql "Mom's car" = "Mom''s car"%string
  ∧ Sql.readLiteral "'Mom's car', 8000" = Some ("Mom"%string, "s car', 8000"%string).
Proof. split; reflexivity. Qed.

(** X11. Every preset of [goalTemplates] turns any form into one that
    [createGoal] accepts: the inserted name is the name of the preset, the
    inserted target amount is 10000 for the preset with [months] and the
    [amount] of the preset for the others, and the allocations and the
    target date of the form are left as they were. *)
Theorem applyTemplate_accepted
    (accounts : list Account.t) (id : string) (form : Form.t)
    (template : Template.t) :
  template ∈ goalTemplates →
  (∃ values,
     createGoal accounts id (applyTemplate template form) = inl values
     ∧ Insert.name values = Template.name template
     ∧ Insert.target_amount values
       = match Template.months template, Template.amount template with
         | Some _, _ => Num.of_Z 10000
         | None, Some amount => amount
         | None, None => Form.newGoalTargetAmount form
         end
     ∧ Num.truthy (Insert.target_amount values) = true)
  ∧ Form.newGoalAllocations (applyTemplate template form)
    = Form.newGoalAllocations form
  ∧ Form.newGoalTargetDate (applyTemplate template form)
    = Form.newGoalTargetDate form.
Proof.
  intros Hin. split; [|done]. unfold goalTemplates in Hin.
  repeat (apply elem_of_cons in Hin as [->|Hin];
          [eexists; split; [reflexivity|by repeat split]|]).
  by apply elem_of_nil in Hin.
Qed.

Lemma applyTemplate_accepted_witness :
  ∃ values,
    createGoal Sample.accounts "goal-e"
      (applyTemplate
         (Template.mk "Emergency Fund" "🛡️" "#ef4444" (Some (Num.of_Z 6)) None)
         resetForm) = inl values
    ∧ Insert.name values = "Emergency Fund"%string
    ∧ Insert.target_amount values = Num.of_Z 10000
    ∧ Num.truthy (Insert.target_amount values) = true.
Proof.
  refine (proj1 (applyTemplate_accepted Sample.accounts "goal-e" resetForm
                   (Template.mk "Emergency Fund" "🛡️" "#ef4444"
                      (Some (Num.of_Z 6)) None) _)).
  repeat constructor.
Defined.

(** ** Order facts on amounts *)

Section Order.

Implicit Types a b n x l h : Qc.

Lemma leb_Fin_true a b : (Fin a <=? Fin b)%js = true ↔ a ≤ b.
Proof. apply leb_Qc_true. Qed.

Lemma leb_Fin_false a b : (Fin a <=? Fin b)%js = false ↔ b < a.
Proof. apply leb_Qc_false. Qed.

Lemma ltb_Fin_true a b : (Fin a <? Fin b)%js = true ↔ a < b.
Proof. apply ltb_Qc_true. Qed.

Lemma ltb_Fin_false a b : (Fin a <? Fin b)%js = false ↔ b ≤ a.
Proof. apply ltb_Qc_false. Qed.

Lemma hundred_pos : 0 < Qc_of_Z 100.
Proof. rewrite <- Z2Qc_inj_0. by apply (proj1 (Z2Qc_inj_lt 0 100)). Qed.

Lemma Qcdiv_mult_pos a n : 0 < n → a / n * n = a.
Proof.
  intros Hn. unfold Qcdiv. rewrite <- Qcmult_assoc, Qcmult_inv_l.
  - apply Qcmult_1_r.
  - intros ->. by apply (Qclt_not_eq 0 0).
Qed.

Lemma Qcdiv_diag n : 0 < n → n / n = 1.
Proof.
  intros Hn. unfold Qcdiv. apply Qcmult_inv_r.
  intros ->. by apply (Qclt_not_eq 0 0).
Qed.

(** The percentage [a / n * 100] of a positive [n] grows with [a]. *)
Lemma percent_le a b n :
  0 < n → a / n * Qc_of_Z 100 ≤ b / n * Qc_of_Z 100 ↔ a ≤ b.
Proof.
  intros Hn. rewrite <- (Qcmult_le_mono_pos_r _ _ _ hundred_pos).
  rewrite (Qcmult_le_mono_pos_r (a / n) (b / n) n Hn).
  by rewrite !Qcdiv_mult_pos.
Qed.

Lemma percent_lt a b n :
  0 < n → a / n * Qc_of_Z 100 < b / n * Qc_of_Z 100 ↔ a < b.
Proof. intros Hn. by rewrite !Qclt_nge, percent_le. Qed.

Lemma percent_zero n : 0 / n * Qc_of_Z 100 = 0.
Proof. unfold Qcdiv. by rewrite !Qcmult_0_l. Qed.

Lemma percent_full n : 0 < n → n / n * Qc_of_Z 100 = Qc_of_Z 100.
Proof. intros Hn. by rewrite Qcdiv_diag, Qcmult_1_l. Qed.

Lemma Qcminus_le a b x : a - x ≤ b - x ↔ a ≤ b.
Proof. unfold Qcminus. symmetry. apply Qcplus_le_mono_r. Qed.

Lemma Qcminus_nonpos a b : a - b ≤ 0 ↔ a ≤ b.
Proof.
  rewrite (Qcplus_le_mono_r (a - b) 0 b). unfold Qcminus.
  by rewrite <- Qcplus_assoc, (Qcplus_comm (- b)), Qcplus_opp_r,
    Qcplus_0_r, Qcplus_0_l.
Qed.

Lemma Fin_inj a b : Fin a = Fin b → a = b.
Proof.
  intros H.
  exact (f_equal (fun n : number => match n with Fin q => q | _ => a end) H).
Qed.

(** The clamp of a rational. *)
Lemma clamp_Fin x l h :
  Spec.clamp (Fin x) (Fin l) (Fin h)
  = Fin (if Num.ltb_Qc x l then l else if Num.ltb_Qc h x then h else x).
Proof.
  unfold Spec.clamp, Num.gtb, Num.ltb.
  by destruct (Num.ltb_Qc x l), (Num.ltb_Qc h x).
Qed.

Lemma clamp_Fin_mono x y l h :
  l ≤ h → x ≤ y →
  (Spec.clamp (Fin x) (Fin l) (Fin h) <=? Spec.clamp (Fin y) (Fin l) (Fin h))%js
  = true.
Proof.
  intros Hlh Hxy. rewrite !clamp_Fin. apply leb_Fin_true.
  destruct (Num.ltb_Qc x l) eqn:Hxl, (Num.ltb_Qc y l) eqn:Hyl,
    (Num.ltb_Qc h x) eqn:Hhx, (Num.ltb_Qc h y) eqn:Hhy;
    rewrite ?ltb_Qc_true, ?ltb_Qc_false in *; try done;
    eauto using Qcle_trans, Qclt_le_weak, Qcle_refl.
  all: exfalso; eapply Qclt_not_le; [eassumption|];
    eauto using Qcle_trans, Qclt_le_weak.
Qed.

End Order.

(** ** Progress and remaining amount *)

Section Amounts.

Variable goalBalances : gmap string number.

Implicit Types goal : Goal.t.
Implicit Types c t s : Qc.

(** The amount that [getProgress] reads: [goalBalances.get(id) || 0]. *)
Local Abbreviation storedOrZero goal :=
  (or_default (goalBalances !! Goal.id goal) Num.zero).

Lemma getProgress_Fin goal c t s :
  storedOrZero goal = Fin c →
  Goal.target_amount goal = Fin t → Goal.starting_balance goal = Fin s →
  getProgress goalBalances goal
  = if Num.leb_Qc (t - s) 0 then Num.of_Z 100
    else Spec.clamp (Fin ((c - s) / (t - s) * Qc_of_Z 100))
           Num.zero (Num.of_Z 100).
Proof.
  intros Hc Ht Hs. unfold getProgress. rewrite Hc, Ht, Hs, !sub_Fin.
  rewrite zero_Fin at 1. unfold Num.leb at 1.
  destruct (Num.leb_Qc (t - s) 0) eqn:Hneeded; [done|].
  apply leb_Qc_false in Hneeded.
  rewrite div_Fin_pos by done. unfold Num.of_Z at 2. rewrite mul_Fin.
  apply (min_max_clamp _ _ _ hundred_bounds).
Qed.

(** The two readings of the stored amount: when it is truthy both
    [getCurrentAmount] and [getProgress] use it, otherwise the first takes
    the starting balance and the second 0. *)
Lemma stored_cases goal :
  (getCurrentAmount goalBalances goal = storedOrZero goal
   ∧ ∃ v, goalBalances !! Goal.id goal = Some v ∧ Num.truthy v = true)
  ∨ (getCurrentAmount goalBalances goal = Goal.starting_balance goal
     ∧ storedOrZero goal = Num.zero).
Proof.
  unfold getCurrentAmount, or_default.
  destruct (goalBalances !! Goal.id goal) as [v|]; [|by right].
  destruct (Num.truthy v) eqn:Hv; [left|by right].
  split; [done|]. by exists v.
Qed.

Lemma max_not_ltb_l (a b : number) : (Math.max a b <? a)%js = false.
Proof.
  destruct a as [x| | |], b as [y| | |]; try done.
  - unfold Math.max, Num.ltb, Num.leb.
    destruct (Num.leb_Qc x y) eqn:Hxy.
    + apply ltb_Qc_false. by apply leb_Qc_true.
    + by apply ltb_Qc_false.
  - by apply ltb_Qc_false.
Qed.

Lemma max_zero_Fin (d : Qc) :
  Math.max Num.zero (Fin d) = Fin (if Num.leb_Qc 0 d then d else 0).
Proof.
  rewrite zero_Fin. unfold Math.max, Num.leb.
  by destruct (Num.leb_Qc 0 d).
Qed.

Lemma getRemainingAmount_Fin goal t c :
  Goal.target_amount goal = Fin t →
  getCurrentAmount goalBalances goal = Fin c →
  getRemainingAmount goalBalances goal
  = Fin (if Num.leb_Qc 0 (t - c) then t - c else 0).
Proof.
  intros Ht Hc. unfold getRemainingAmount.
  by rewrite Ht, Hc, sub_Fin, max_zero_Fin.
Qed.

Lemma getRemainingAmount_zero goal t c :
  Goal.target_amount goal = Fin t →
  getCurrentAmount goalBalances goal = Fin c →
  getRemainingAmount goalBalances goal = Num.zero ↔ t ≤ c.
Proof.
  intros Ht Hc. rewrite (getRemainingAmount_Fin _ _ _ Ht Hc), zero_Fin.
  rewrite <- (Qcminus_nonpos t c).
  destruct (Num.leb_Qc 0 (t - c)) eqn:Hd.
  - apply leb_Qc_true in Hd. split.
    + intros Heq. apply Fin_inj in Heq. rewrite Heq. apply Qcle_refl.
    + intros Hle. f_equal. by apply Qcle_antisym.
  - apply leb_Qc_false in Hd. split; [|done]. intros _.
    by apply Qclt_le_weak.
Qed.

Lemma getProgress_full goal c t s :
  storedOrZero goal = Fin c →
  Goal.target_amount goal = Fin t → Goal.starting_balance goal = Fin s →
  t - s ≤ 0 ∨ t ≤ c →
  getProgress goalBalances goal = Num.of_Z 100.
Proof.
  intros Hc Ht Hs Hfull. rewrite (getProgress_Fin _ _ _ _ Hc Ht Hs).
  destruct (Num.leb_Qc (t - s) 0) eqn:Hneeded; [done|].
  apply leb_Qc_false in Hneeded.
  destruct Hfull as [Hle|Hle]; [by destruct (Qclt_not_le _ _ Hneeded)|].
  unfold Num.zero, Num.of_Z. rewrite clamp_Fin.
  assert (Qc_of_Z 100 ≤ (c - s) / (t - s) * Qc_of_Z 100) as Hx.
  { rewrite <- (percent_full (t - s)) at 1 by done.
    by rewrite percent_le, Qcminus_le. }
  assert (Num.ltb_Qc ((c - s) / (t - s) * Qc_of_Z 100) (Qc_of_Z 0) = false)
    as ->.
  { apply ltb_Qc_false. eapply Qcle_trans; [apply hundred_bounds|done]. }
  destruct (Num.ltb_Qc _ _) eqn:Hhx; [done|].
  apply ltb_Qc_false in Hhx. f_equal. by apply Qcle_antisym.
Qed.

End Amounts.

(** X12. The remaining amount is never below 0.  For a finite target and
    a finite current amount it is at least 0, and it is 0 exactly when the
    current amount has reached the target. *)
Theorem remaining_never_negative
    (goalBalances : gmap string number) (goal : Goal.t) :
  (getRemainingAmount goalBalances goal <? Num.zero)%js = false
  ∧ (Num.is_finite (Goal.target_amount goal) →
     Num.is_finite (getCurrentAmount goalBalances goal) →
     (Num.zero <=? getRemainingAmount goalBalances goal)%js = true
     ∧ (getRemainingAmount goalBalances goal = Num.zero
        ↔ (Goal.target_amount goal <=? getCurrentAmount goalBalances goal)%js
          = true)).
Proof.
  split; [apply max_not_ltb_l|]. intros Ht Hc.
  destruct (Goal.target_amount goal) as [t| | |] eqn:Htarget; [|done..].
  destruct (getCurrentAmount goalBalances goal) as [c| | |] eqn:Hcurrent;
    [|done..].
  rewrite (getRemainingAmount_zero _ _ _ _ Htarget Hcurrent), leb_Fin_true.
  rewrite (getRemainingAmount_Fin _ _ _ _ Htarget Hcurrent), zero_Fin.
  split; [|done]. apply leb_Fin_true.
  destruct (Num.leb_Qc 0 (t - c)) eqn:Hd; [by apply leb_Qc_true|].
  apply Qcle_refl.
Qed.

Lemma remaining_never_negative_witness :
  (Num.zero
   <=? getRemainingAmount {[ "goal-a"%string := Num.of_Z 2000 ]}
         Scenario.goalA)%js = true
  ∧ (getRemainingAmount {[ "goal-a"%string := Num.of_Z 2000 ]} Scenario.goalA
     = Num.zero
     ↔ (Goal.target_amount Scenario.goalA
        <=? getCurrentAmount {[ "goal-a"%string := Num.of_Z 2000 ]}
              Scenario.goalA)%js = true).
Proof.
  apply (proj2 (remaining_never_negative
                  {[ "goal-a"%string := Num.of_Z 2000 ]} Scenario.goalA)).
  - exact I.
  - vm_compute. exact I.
Defined.

(** X14. With finite amounts, the progress of a goal does not decrease
    when its stored amount grows. *)
Theorem getProgress_monotone
    (goalBalances goalBalances' : gmap string number) (goal : Goal.t) :
  let stored := or_default (goalBalances !! Goal.id goal) Num.zero in
  let stored' := or_default (goalBalances' !! Goal.id goal) Num.zero in
  Num.is_finite stored → Num.is_finite stored' →
  Num.is_finite (Goal.target_amount goal) →
  Num.is_finite (Goal.starting_balance goal) →
  (stored <=? stored')%js = true →
  (getProgress goalBalances goal <=? getProgress goalBalances' goal)%js = true.
Proof.
  intros stored stored' Hc Hc' Ht Hs Hle.
  destruct stored as [c| | |] eqn:Hstored; [|done..].
  destruct stored' as [c'| | |] eqn:Hstored'; [|done..].
  destruct (Goal.target_amount goal) as [t| | |] eqn:Htarget; [|done..].
  destruct (Goal.starting_balance goal) as [s| | |] eqn:Hstart; [|done..].
  rewrite (getProgress_Fin _ _ _ _ _ Hstored Htarget Hstart).
  rewrite (getProgress_Fin _ _ _ _ _ Hstored' Htarget Hstart).
  apply leb_Fin_true in Hle.
  destruct (Num.leb_Qc (t - s) 0) eqn:Hneeded.
  - by rewrite of_Z_leb.
  - apply leb_Qc_false in Hneeded. unfold Num.zero, Num.of_Z.
    apply clamp_Fin_mono; [apply hundred_bounds|].
    by rewrite percent_le, Qcminus_le.
Qed.

Lemma getProgress_monotone_witness :
  (getProgress {[ "goal-a"%string := Num.of_Z 2000 ]} Scenario.goalA
   <=? getProgress {[ "goal-a"%string := Num.of_Z 2500 ]} Scenario.goalA)%js
  = true.
Proof.
  apply (getProgress_monotone {[ "goal-a"%string := Num.of_Z 2000 ]}
           {[ "goal-a"%string := Num.of_Z 2500 ]} Scenario.goalA).
  - vm_compute. exact I.
  - vm_compute. exact I.
  - exact I.
  - exact I.
  - vm_compute. reflexivity.
Defined.

(** X15. With finite amounts, a goal with nothing remaining is at 100%
    and its "Mark Complete" button is shown. *)
Theorem nothing_remaining_is_complete
    (goalBalances : gmap string number) (goal : Goal.t) :
  Num.is_finite (or_default (goalBalances !! Goal.id goal) Num.zero) →
  Num.is_finite (Goal.target_amount goal) →
  Num.is_finite (Goal.starting_balance goal) →
  getRemainingAmount goalBalances goal = Num.zero →
  getProgress goalBalances goal = Num.of_Z 100
  ∧ showMarkComplete goalBalances goal = true.
Proof.
  intros Hc Ht Hs Hremaining.
  assert (getProgress goalBalances goal = Num.of_Z 100) as Hfull.
  { destruct (or_default (goalBalances !! Goal.id goal) Num.zero)
      as [c| | |] eqn:Hstored; [|done..].
    destruct (Goal.target_amount goal) as [t| | |] eqn:Htarget; [|done..].
    destruct (Goal.starting_balance goal) as [s| | |] eqn:Hstart; [|done..].
    apply (getProgress_full _ _ _ _ _ Hstored Htarget Hstart).
    destruct (stored_cases goalBalances goal) as [[Hcur _]|[Hcur _]].
    - right. rewrite Hstored in Hcur.
      by apply (getRemainingAmount_zero _ _ _ _ Htarget Hcur).
    - left. rewrite Hstart in Hcur. apply Qcminus_nonpos.
      by apply (getRemainingAmount_zero _ _ _ _ Htarget Hcur). }
  split; [done|]. unfold showMarkComplete, Num.geb.
  by rewrite Hfull, of_Z_leb.
Qed.

Lemma nothing_remaining_is_complete_witness :
  getProgress {[ "goal-b"%string := Num.of_Z 5200 ]} Scenario.goalB
  = Num.of_Z 100
  ∧ showMarkComplete {[ "goal-b"%string := Num.of_Z 5200 ]} Scenario.goalB
    = true.
Proof.
  apply (nothing_remaining_is_complete {[ "goal-b"%string := Num.of_Z 5200 ]}
           Scenario.goalB).
  - vm_compute. exact I.
  - exact I.
  - exact I.
  - js_eval.
Defined.

(** A goal may be at 100% with an amount remaining: when the starting
    balance exceeds the target, the progress is 100 whatever is stored. *)
Example full_with_remaining :
  getProgress {[ "goal-n"%string := Num.of_Z 300 ]} Scenario.goalN = Num.of_Z 100
  ∧ getRemainingAmount {[ "goal-n"%string := Num.of_Z 300 ]} Scenario.goalN
    = Num.of_Z 200.
Proof. js_eval. Qed.

(** ** Days, months and the track *)

Section Days.

Variable goalBalances : gmap string number.
Variable dateTime : string → number.
Variable today : number.

Implicit Types goal : Goal.t.
Implicit Types a b d q r : Qc.

Lemma msPerDay_value : msPerDay = Num.of_Z 86400000.
Proof. js_eval. Qed.

Lemma of_Z_pos (z : Z) : (0 < z)%Z → 0 < Qc_of_Z z.
Proof.
  intros Hz. rewrite <- Z2Qc_inj_0. by apply (proj1 (Z2Qc_inj_lt 0 z)).
Qed.

Lemma Qcdiv_nonpos a n : 0 < n → a / n ≤ 0 ↔ a ≤ 0.
Proof.
  intros Hn. rewrite (Qcmult_le_mono_pos_r (a / n) 0 n Hn).
  by rewrite Qcdiv_mult_pos, Qcmult_0_l.
Qed.

Lemma Qcdiv_nonneg a n : 0 < n → 0 ≤ a / n ↔ 0 ≤ a.
Proof.
  intros Hn. rewrite (Qcmult_le_mono_pos_r 0 (a / n) n Hn).
  by rewrite Qcdiv_mult_pos, Qcmult_0_l.
Qed.

Lemma Qcdiv_pos a n : 0 < n → 0 < a / n ↔ 0 < a.
Proof. intros Hn. by rewrite !Qclt_nge, Qcdiv_nonpos. Qed.

Lemma Qceiling_nonpos q : (Qceiling q ≤ 0)%Z ↔ q ≤ 0.
Proof.
  split.
  - intros Hk. unfold Qcle. eapply Qle_trans; [apply Qle_ceiling|].
    change (this 0) with (inject_Z 0). by rewrite <- Zle_Qle.
  - intros Hq. apply (Qceiling_resp_le q 0) in Hq. exact Hq.
Qed.

Lemma Qceiling_bounds q :
  q ≤ Qc_of_Z (Qceiling q) ∧ Qc_of_Z (Qceiling q - 1) < q.
Proof. split; [apply Qle_ceiling|apply Qceiling_lt]. Qed.

(** The days remaining of a goal with a target date, for finite times. *)
Lemma getDaysRemaining_Fin goal target_date a b :
  targetDate goal = Some target_date →
  dateTime target_date = Fin a → today = Fin b →
  getDaysRemaining dateTime today goal
  = Some (Num.of_Z (Qceiling ((a - b) / Qc_of_Z 86400000)%Qc)).
Proof.
  intros Hdate Ha Hb. unfold getDaysRemaining.
  rewrite Hdate, Ha, Hb, msPerDay_value, sub_Fin. unfold Num.of_Z at 1.
  rewrite div_Fin_pos by (apply of_Z_pos; lia). reflexivity.
Qed.

End Days.

Lemma gtb_negb_leb (a b : number) :
  ¬ Num.is_nan a → ¬ Num.is_nan b → (a >? b)%js = negb (a <=? b)%js.
Proof.
  intros Ha Hb. unfold Num.gtb.
  destruct a as [x| | |], b as [y| | |]; try done;
    try (by destruct Ha); try (by destruct Hb).
  unfold Num.ltb, Num.leb. destruct (Num.leb_Qc x y) eqn:Hxy; cbn [negb].
  - apply ltb_Qc_false. by apply leb_Qc_true.
  - apply ltb_Qc_true. by apply leb_Qc_false.
Qed.

Lemma Qcopp_neg (d : Qc) : 0 - d < 0 ↔ 0 < d.
Proof.
  rewrite (Qcplus_lt_mono_r (0 - d) 0 d). unfold Qcminus.
  by rewrite <- Qcplus_assoc, (Qcplus_comm (- d)), Qcplus_opp_r, !Qcplus_0_l.
Qed.

Lemma Qcopp_pos (d : Qc) : 0 < 0 - d ↔ d < 0.
Proof.
  rewrite (Qcplus_lt_mono_r 0 (0 - d) d). unfold Qcminus.
  by rewrite <- Qcplus_assoc, (Qcplus_comm (- d)), Qcplus_opp_r, !Qcplus_0_l.
Qed.

Lemma Qcopp_zero (d : Qc) : 0 - d = 0 ↔ d = 0.
Proof.
  split.
  - intros Hd. apply (Qcplus_inj_l (- d)). unfold Qcminus in Hd.
    by rewrite Qcplus_opp_r, Hd.
  - intros ->. unfold Qcminus. by rewrite Qcplus_opp_r.
Qed.

Lemma minus_five_le (x : Qc) : x - Qc_of_Z 5 ≤ x.
Proof.
  unfold Qcminus. rewrite <- (Qcplus_0_r x) at 2.
  apply Qcplus_le_mono_l. rewrite <- Z2Qc_inj_opp, <- Z2Qc_inj_0.
  by apply (proj1 (Z2Qc_inj_le (-5) 0)).
Qed.

Lemma minus_nonneg_le (x d : Qc) : 0 ≤ d → x - d ≤ x.
Proof.
  intros Hd. unfold Qcminus. rewrite <- (Qcplus_0_r x) at 2.
  apply Qcplus_le_mono_l. apply Qcopp_le_compat in Hd.
  by replace (- 0) with 0 in Hd by (by apply Qc_is_canon).
Qed.

(** With finite amounts the progress is a rational between 0 and 100. *)
Lemma getProgress_bounds (goalBalances : gmap string number) (goal : Goal.t) :
  Num.is_finite (or_default (goalBalances !! Goal.id goal) Num.zero) →
  Num.is_finite (Goal.target_amount goal) →
  Num.is_finite (Goal.starting_balance goal) →
  ∃ p, getProgress goalBalances goal = Fin p
       ∧ Qc_of_Z 0 ≤ p ∧ p ≤ Qc_of_Z 100.
Proof.
  intros Hc Ht Hs.
  destruct (or_default (goalBalances !! Goal.id goal) Num.zero)
    as [c| | |] eqn:Hstored; [|done..].
  destruct (Goal.target_amount goal) as [t| | |] eqn:Htarget; [|done..].
  destruct (Goal.starting_balance goal) as [s| | |] eqn:Hstart; [|done..].
  rewrite (getProgress_Fin _ _ _ _ _ Hstored Htarget Hstart).
  destruct (Num.leb_Qc (t - s) 0).
  - eexists. split; [reflexivity|]. split; [apply hundred_bounds|apply Qcle_refl].
  - destruct (clamp_range (Fin ((c - s) / (t - s) * Qc_of_Z 100)) _ _
                hundred_bounds) as [Hlo Hhi]; [by intros []|].
    unfold Num.zero, Num.of_Z. rewrite clamp_Fin in *.
    eexists. split; [reflexivity|]. by rewrite <- !leb_Fin_true.
Qed.

(** X16. For a goal with a target date and finite times, the days
    remaining are a whole number [k] of days, the least one that is not
    below the time left: [k - 1 < (target - today) / 1 day <= k].  They are
    [<= 0] exactly when the target time is not after the current time. *)
Theorem days_remaining_whole
    (dateTime : string → number) (today : number) (goal : Goal.t)
    (target_date : string) :
  Goal.target_date goal = Some target_date → target_date ≠ ""%string →
  Num.is_finite (dateTime target_date) → Num.is_finite today →
  ∃ k : Z,
    getDaysRemaining dateTime today goal = Some (Num.of_Z k)
    ∧ ((dateTime target_date - today) / msPerDay <=? Num.of_Z k)%js = true
    ∧ (Num.of_Z (k - 1) <? (dateTime target_date - today) / msPerDay)%js = true
    ∧ (Num.of_Z k <=? Num.zero)%js = (dateTime target_date <=? today)%js.
Proof.
  intros Hdate Hne Ha Hb. apply (targetDate_Some _ _ Hdate) in Hne.
  destruct (dateTime target_date) as [a| | |] eqn:Htime; [|done..].
  destruct today as [b| | |] eqn:Htoday; [|done..].
  exists (Qceiling ((a - b) / Qc_of_Z 86400000)%Qc).
  rewrite (getDaysRemaining_Fin dateTime (Fin b) goal target_date a b)
    by done.
  split; [done|]. rewrite msPerDay_value, sub_Fin. unfold Num.of_Z at 1 3.
  rewrite div_Fin_pos by (apply of_Z_pos; lia).
  destruct (Qceiling_bounds ((a - b) / Qc_of_Z 86400000)) as [Hle Hlt].
  split; [by apply leb_Fin_true|]. split; [by apply ltb_Fin_true|].
  unfold Num.zero. rewrite of_Z_leb. apply Bool.eq_iff_eq_true.
  rewrite Z.leb_le, leb_Fin_true, Qceiling_nonpos.
  rewrite Qcdiv_nonpos by (apply of_Z_pos; lia). apply Qcminus_nonpos.
Qed.

Lemma days_remaining_whole_witness :
  ∃ k : Z,
    getDaysRemaining Scenario.dateTime Scenario.today Scenario.goalC
    = Some (Num.of_Z k)
    ∧ ((Scenario.dateTime "2025-04-01T00:00:00.000Z" - Scenario.today)
       / msPerDay <=? Num.of_Z k)%js = true
    ∧ (Num.of_Z (k - 1)
       <? (Scenario.dateTime "2025-04-01T00:00:00.000Z" - Scenario.today)
          / msPerDay)%js = true
    ∧ (Num.of_Z k <=? Num.zero)%js
      = (Scenario.dateTime "2025-04-01T00:00:00.000Z" <=? Scenario.today)%js.
Proof.
  apply (days_remaining_whole Scenario.dateTime Scenario.today Scenario.goalC
           "2025-04-01T00:00:00.000Z").
  - reflexivity.
  - discriminate.
  - exact I.
  - exact I.
Defined.

Lemma of_Z_ltb (n m : Z) : (Num.of_Z n <? Num.of_Z m)%js = Z.ltb n m.
Proof.
  unfold Num.ltb, Num.of_Z. destruct (Z.ltb_spec n m) as [H|H].
  - apply ltb_Qc_true. by apply (proj1 (Z2Qc_inj_lt n m)).
  - apply ltb_Qc_false. by apply (proj1 (Z2Qc_inj_le m n)).
Qed.

(** A later reading of the clock does not give more days. *)
Lemma Qceiling_days_mono (a b b' : Qc) :
  b ≤ b' →
  (Qceiling ((a - b') / Qc_of_Z 86400000)%Qc
   ≤ Qceiling ((a - b) / Qc_of_Z 86400000)%Qc)%Z.
Proof.
  intros Hb. apply Qceiling_resp_le.
  change ((a - b') / Qc_of_Z 86400000 ≤ (a - b) / Qc_of_Z 86400000).
  unfold Qcdiv. apply Qcmult_le_mono_nonneg_r.
  - apply Qclt_le_weak, Qcinv_pos, of_Z_pos. lia.
  - unfold Qcminus. apply Qcplus_le_mono_l. by apply Qcopp_le_compat.
Qed.

(** X17. The line under the name of a goal and the monthly amount are
    computed by two calls, each with its own reading of the clock, the
    second not before the first.  Without target date there is neither.
    With a target date and finite times a line is shown, a monthly amount
    is shown only under "N days left", and "Past due" comes with no
    monthly amount.  With a target date that is no date there is no line
    although the monthly amount is [NaN] and not [null]. *)
Theorem dateLabel_monthlyNeeded
    (goalBalances : gmap string number) (dateTime : string → number)
    (today today' : number) (goal : Goal.t) :
  let daysLeft := getDaysRemaining dateTime today goal in
  let monthlyNeeded := getMonthlyNeeded goalBalances dateTime today' goal in
  (Spec.noTargetDate goal →
   dateLabel goal daysLeft = no_label ∧ monthlyNeeded = None)
  ∧ (∀ target_date,
       Goal.target_date goal = Some target_date → target_date ≠ ""%string →
       Num.is_finite (dateTime target_date) →
       Num.is_finite today → Num.is_finite today' →
       (today <=? today')%js = true →
       (is_Some monthlyNeeded → ∃ n, dateLabel goal daysLeft = days_left n)
       ∧ (dateLabel goal daysLeft = past_due → monthlyNeeded = None)
       ∧ dateLabel goal daysLeft ≠ no_label)
  ∧ (∀ target_date,
       Goal.target_date goal = Some target_date → target_date ≠ ""%string →
       Num.is_nan (dateTime target_date) →
       dateLabel goal daysLeft = no_label ∧ monthlyNeeded = Some NaN).
Proof.
  intros daysLeft monthlyNeeded. subst daysLeft monthlyNeeded.
  unfold dateLabel, getMonthlyNeeded. split; [|split].
  - intros Hno. apply targetDate_None in Hno.
    unfold getDaysRemaining. by rewrite Hno.
  - intros target_date Hdate Hne Ha Hb Hb' Hclock.
    apply (targetDate_Some _ _ Hdate) in Hne.
    destruct (dateTime target_date) as [a| | |] eqn:Htime; [|done..].
    destruct today as [b| | |] eqn:Htoday; [|done..].
    destruct today' as [b'| | |] eqn:Htoday'; [|done..].
    apply leb_Fin_true in Hclock.
    rewrite (getDaysRemaining_Fin dateTime (Fin b) goal target_date a b)
      by done.
    rewrite (getDaysRemaining_Fin dateTime (Fin b') goal target_date a b')
      by done.
    pose proof (Qceiling_days_mono a b b' Hclock) as Hmono.
    set (k := Qceiling ((a - b) / Qc_of_Z 86400000)%Qc) in *.
    set (k' := Qceiling ((a - b') / Qc_of_Z 86400000)%Qc) in *.
    rewrite Hne. unfold Num.gtb, Num.zero. rewrite of_Z_ltb, !of_Z_leb.
    destruct (Z.ltb_spec 0 k) as [Hk|Hk].
    + split; [by eauto|]. by split.
    + assert (Z.leb k 0 = true) as -> by by apply Z.leb_le.
      assert (Z.leb k' 0 = true) as -> by (apply Z.leb_le; lia).
      split; [by intros [? ?]|]. by split.
  - intros target_date Hdate Hne Hnan.
    apply (targetDate_Some _ _ Hdate) in Hne.
    unfold getDaysRemaining. rewrite Hne.
    destruct (dateTime target_date); try done.
    change (NaN - today)%js with NaN. change (NaN - today')%js with NaN.
    change (NaN / msPerDay)%js with NaN. change (Math.ceil NaN) with NaN.
    split; [done|]. change (NaN <=? Num.zero)%js with false. cbn match.
    change (NaN / Num.of_Z 30)%js with NaN.
    by destruct (getRemainingAmount goalBalances goal).
Qed.

(** Scenario C, the second reading of the clock one second after the
    first. *)
Lemma dateLabel_monthlyNeeded_witness :
  (is_Some (getMonthlyNeeded Scenario.balancesC Scenario.dateTime
              (Num.of_Z 1740873601000) Scenario.goalC) →
   ∃ n, dateLabel Scenario.goalC
          (getDaysRemaining Scenario.dateTime Scenario.today Scenario.goalC)
        = days_left n)
  ∧ (dateLabel Scenario.goalC
       (getDaysRemaining Scenario.dateTime Scenario.today Scenario.goalC)
     = past_due →
     getMonthlyNeeded Scenario.balancesC Scenario.dateTime
       (Num.of_Z 1740873601000) Scenario.goalC = None)
  ∧ dateLabel Scenario.goalC
      (getDaysRemaining Scenario.dateTime Scenario.today Scenario.goalC)
    ≠ no_label.
Proof.
  apply (proj1 (proj2 (dateLabel_monthlyNeeded Scenario.balancesC
                         Scenario.dateTime Scenario.today
                         (Num.of_Z 1740873601000) Scenario.goalC))
           "2025-04-01T00:00:00.000Z"%string).
  - reflexivity.
  - discriminate.
  - exact I.
  - exact I.
  - exact I.
  - vm_compute. reflexivity.
Defined.

(** X18. For a goal with a target date, finite times and finite amounts,
    a monthly amount that is shown is at least 0; when 30 days or more
    remain it is at most the remaining amount. *)
Theorem monthlyNeeded_bounds
    (goalBalances : gmap string number) (dateTime : string → number)
    (today : number) (goal : Goal.t) (target_date : string)
    (monthlyNeeded : number) :
  Goal.target_date goal = Some target_date → target_date ≠ ""%string →
  Num.is_finite (dateTime target_date) → Num.is_finite today →
  Num.is_finite (Goal.target_amount goal) →
  Num.is_finite (getCurrentAmount goalBalances goal) →
  getMonthlyNeeded goalBalances dateTime today goal = Some monthlyNeeded →
  (Num.zero <=? monthlyNeeded)%js = true
  ∧ (∀ days,
       getDaysRemaining dateTime today goal = Some days →
       (Num.of_Z 30 <=? days)%js = true →
       (monthlyNeeded <=? getRemainingAmount goalBalances goal)%js = true).
Proof.
  intros Hdate Hne Ha Hb Ht Hc. apply (targetDate_Some _ _ Hdate) in Hne.
  destruct (dateTime target_date) as [a| | |] eqn:Htime; [|done..].
  destruct today as [b| | |] eqn:Htoday; [|done..].
  destruct (Goal.target_amount goal) as [t| | |] eqn:Htarget; [|done..].
  destruct (getCurrentAmount goalBalances goal) as [c| | |] eqn:Hcurrent;
    [|done..].
  unfold getMonthlyNeeded.
  rewrite (getDaysRemaining_Fin dateTime (Fin b) goal target_date a b) by done.
  set (k := Qceiling ((a - b) / Qc_of_Z 86400000)%Qc).
  unfold Num.zero at 1. rewrite of_Z_leb.
  destruct (Z.leb_spec k 0) as [|Hk]; [done|].
  rewrite (getRemainingAmount_Fin _ _ _ _ Htarget Hcurrent).
  set (r := if Num.leb_Qc 0 (t - c) then t - c else 0).
  assert (0 ≤ r) as Hr.
  { subst r. destruct (Num.leb_Qc 0 (t - c)) eqn:Hd;
      [by apply leb_Qc_true|apply Qcle_refl]. }
  assert (0 < Qc_of_Z 30) as H30 by (apply of_Z_pos; lia).
  assert (0 < Qc_of_Z k / Qc_of_Z 30) as Hmonths.
  { apply Qcdiv_pos; [done|]. by apply of_Z_pos. }
  unfold Num.of_Z at 1 2. rewrite !div_Fin_pos by done.
  intros [= <-]. split.
  - rewrite zero_Fin. apply leb_Fin_true. by apply Qcdiv_nonneg.
  - intros days [= <-]. rewrite of_Z_leb, Z.leb_le. intros Hdays.
    apply leb_Fin_true.
    rewrite (Qcmult_le_mono_pos_r _ _ _ Hmonths), Qcdiv_mult_pos by done.
    rewrite <- (Qcmult_1_r r) at 1. apply Qcmult_le_mono_nonneg_l; [done|].
    rewrite (Qcmult_le_mono_pos_r _ _ _ H30), Qcdiv_mult_pos, Qcmult_1_l
      by done.
    by apply (proj1 (Z2Qc_inj_le 30 k)).
Qed.

Lemma monthlyNeeded_bounds_witness :
  (Num.zero <=? Num.of_Z 6000)%js = true
  ∧ (Num.of_Z 6000
     <=? getRemainingAmount Scenario.balancesC Scenario.goalC)%js = true.
Proof.
  destruct (monthlyNeeded_bounds Scenario.balancesC Scenario.dateTime
              Scenario.today Scenario.goalC "2025-04-01T00:00:00.000Z"
              (Num.of_Z 6000)) as (Hnonneg & Hmonth).
  - reflexivity.
  - discriminate.
  - exact I.
  - exact I.
  - exact I.
  - vm_compute. exact I.
  - js_eval.
  - split; [exact Hnonneg|].
    apply (Hmonth (Num.of_Z 30)).
    + js_eval.
    + vm_compute. reflexivity.
Defined.

(** X19. The 5% tolerance: with finite amounts, a goal whose expected
    progress is at most 5 is on track whatever it has saved. *)
Theorem on_track_within_tolerance
    (goalBalances : gmap string number) (dateTime : string → number)
    (today : number) (goal : Goal.t) (target_date : string) (days : number) :
  Goal.target_date goal = Some target_date → target_date ≠ ""%string →
  getDaysRemaining dateTime today goal = Some days →
  Num.is_finite (or_default (goalBalances !! Goal.id goal) Num.zero) →
  Num.is_finite (Goal.target_amount goal) →
  Num.is_finite (Goal.starting_balance goal) →
  (expectedProgress dateTime goal target_date days <=? Num.of_Z 5)%js = true →
  isOnTrack goalBalances dateTime today goal = Some true.
Proof.
  intros Hdate Hne Hdays Hc Ht Hs Hexpected.
  unfold isOnTrack. rewrite (targetDate_Some _ _ Hdate Hne), Hdays.
  destruct (getProgress_bounds goalBalances goal Hc Ht Hs)
    as (p & -> & Hlo & _).
  rewrite Z2Qc_inj_0 in Hlo. f_equal. unfold Num.geb.
  destruct (expectedProgress dateTime goal target_date days) as [x| | |];
    try done.
  unfold Num.of_Z in *. rewrite sub_Fin. apply leb_Fin_true.
  apply leb_Fin_true in Hexpected.
  eapply Qcle_trans; [|exact Hlo]. by apply Qcminus_nonpos.
Qed.

Lemma on_track_within_tolerance_witness :
  isOnTrack ∅ Scenario.dateTime (Num.of_Z 1735776000000) Scenario.goalC
  = Some true.
Proof.
  apply (on_track_within_tolerance ∅ Scenario.dateTime
           (Num.of_Z 1735776000000) Scenario.goalC
           "2025-04-01T00:00:00.000Z" (Num.of_Z 89)).
  - reflexivity.
  - discriminate.
  - js_eval.
  - exact I.
  - exact I.
  - exact I.
  - vm_compute. reflexivity.
Defined.

(** X20. With a window of a positive number of days and days remaining
    that are not negative, a goal at 100% is on track. *)
Theorem funded_goal_on_track
    (goalBalances : gmap string number) (dateTime : string → number)
    (today : number) (goal : Goal.t) (target_date : string) (days : number) :
  Goal.target_date goal = Some target_date → target_date ≠ ""%string →
  getDaysRemaining dateTime today goal = Some days →
  Num.is_finite (totalDays dateTime goal target_date) →
  (Num.zero <? totalDays dateTime goal target_date)%js = true →
  Num.is_finite days → (Num.zero <=? days)%js = true →
  getProgress goalBalances goal = Num.of_Z 100 →
  isOnTrack goalBalances dateTime today goal = Some true.
Proof.
  intros Hdate Hne Hdays HT Hpos Hd Hnonneg Hfull.
  unfold isOnTrack, expectedProgress.
  rewrite (targetDate_Some _ _ Hdate Hne), Hdays, Hfull.
  destruct (totalDays dateTime goal target_date) as [T| | |]; [|done..].
  destruct days as [d| | |]; [|done..].
  rewrite zero_Fin in Hpos, Hnonneg.
  apply ltb_Fin_true in Hpos. apply leb_Fin_true in Hnonneg.
  rewrite sub_Fin, div_Fin_pos by done. unfold Num.of_Z.
  rewrite mul_Fin, sub_Fin. f_equal. apply leb_Fin_true.
  eapply Qcle_trans; [apply minus_five_le|].
  assert ((T - d) / T * Qc_of_Z 100 ≤ T / T * Qc_of_Z 100) as Hle.
  { apply percent_le; [done|]. by apply minus_nonneg_le. }
  by rewrite percent_full in Hle.
Qed.

Lemma funded_goal_on_track_witness :
  isOnTrack {[ "goal-c"%string := Num.of_Z 10000 ]} Scenario.dateTime
    Scenario.today Scenario.goalC
  = Some true.
Proof.
  apply (funded_goal_on_track {[ "goal-c"%string := Num.of_Z 10000 ]}
           Scenario.dateTime Scenario.today Scenario.goalC
           "2025-04-01T00:00:00.000Z" (Num.of_Z 30)).
  - reflexivity.
  - discriminate.
  - js_eval.
  - vm_compute. exact I.
  - vm_compute. reflexivity.
  - exact I.
  - vm_compute. reflexivity.
  - js_eval.
Defined.

(** X21. With a window of zero days (a target date at the time of
    creation), finite days remaining and finite amounts, the flag does not
    depend on what is saved: the goal is on track exactly when days
    remain. *)
Theorem zero_window_flag
    (goalBalances : gmap string number) (dateTime : string → number)
    (today : number) (goal : Goal.t) (target_date : string) (days : number) :
  Goal.target_date goal = Some target_date → target_date ≠ ""%string →
  getDaysRemaining dateTime today goal = Some days →
  totalDays dateTime goal target_date = Num.zero →
  Num.is_finite days →
  Num.is_finite (or_default (goalBalances !! Goal.id goal) Num.zero) →
  Num.is_finite (Goal.target_amount goal) →
  Num.is_finite (Goal.starting_balance goal) →
  isOnTrack goalBalances dateTime today goal = Some (Num.zero <? days)%js.
Proof.
  intros Hdate Hne Hdays Hzero Hd Hc Ht Hs.
  unfold isOnTrack, expectedProgress.
  rewrite (targetDate_Some _ _ Hdate Hne), Hdays, Hzero.
  destruct (getProgress_bounds goalBalances goal Hc Ht Hs) as (p & -> & _).
  destruct days as [d| | |]; [|done..]. rewrite zero_Fin, sub_Fin.
  f_equal. unfold Num.div.
  assert (Num.sgn 0 = Eq) as -> by by apply sgn_Eq.
  assert (Num.sgn (Qc_of_Z 100) = Gt) as H100 by reflexivity.
  unfold Num.ltb. destruct (Num.sgn (0 - d)) eqn:Hsign; cbn [Num.inf_of_sign].
  - apply sgn_Eq in Hsign. apply (proj1 (Qcopp_zero d)) in Hsign. rewrite Hsign.
    symmetry. apply ltb_Qc_false, Qcle_refl.
  - apply sgn_Lt in Hsign. apply (proj1 (Qcopp_neg d)) in Hsign.
    unfold Num.of_Z, Num.mul. rewrite H100. symmetry. by apply ltb_Qc_true.
  - apply sgn_Gt in Hsign. apply (proj1 (Qcopp_pos d)) in Hsign.
    unfold Num.of_Z, Num.mul. rewrite H100. symmetry.
    by apply ltb_Qc_false, Qclt_le_weak.
Qed.

Lemma zero_window_flag_witness :
  isOnTrack {[ "goal-d"%string := Num.of_Z 5000 ]} Scenario.dateTime
    Scenario.todayD Scenario.goalD
  = Some (Num.zero <? Num.of_Z 0)%js.
Proof.
  apply (zero_window_flag {[ "goal-d"%string := Num.of_Z 5000 ]}
           Scenario.dateTime Scenario.todayD Scenario.goalD
           "2025-01-01T00:00:00.000Z" (Num.of_Z 0)).
  - reflexivity.
  - discriminate.
  - js_eval.
  - js_eval.
  - exact I.
  - vm_compute. exact I.
  - exact I.
  - exact I.
Defined.

(** ** Lists of goals and the summary *)

Lemma goals_split (goals : list Goal.t) :
  goals ≡ₚ activeGoals goals ++ completedGoals goals.
Proof.
  unfold activeGoals, completedGoals.
  induction goals as [|g goals IH]; [done|]. cbn [List.filter].
  destruct (Goal.completed g); cbn [negb].
  - rewrite <- Permutation_middle. by constructor.
  - cbn. by constructor.
Qed.

(** X22. Every goal is listed once, among the active goals when it is not
    completed and among the completed goals when it is, in the order of
    [goals]; the text "No savings goals yet" is shown exactly when there
    is no goal. *)
Theorem goals_partition (goals : list Goal.t) :
  goals ≡ₚ activeGoals goals ++ completedGoals goals
  ∧ (∀ g, g ∈ activeGoals goals ↔ g ∈ goals ∧ Goal.completed g = false)
  ∧ (∀ g, g ∈ completedGoals goals ↔ g ∈ goals ∧ Goal.completed g = true)
  ∧ activeGoals goals `sublist_of` goals
  ∧ completedGoals goals `sublist_of` goals
  ∧ (showEmpty goals = true ↔ goals = []).
Proof.
  split; [apply goals_split|]. unfold activeGoals, completedGoals.
  split; [|split; [|split; [|split]]].
  - intros g. rewrite !list_elem_of_In, filter_In, negb_true_iff. done.
  - intros g. by rewrite !list_elem_of_In, filter_In.
  - induction goals as [|g goals IH]; [done|]. cbn [List.filter].
    destruct (negb (Goal.completed g)); by constructor.
  - induction goals as [|g goals IH]; [done|]. cbn [List.filter].
    destruct (Goal.completed g); by constructor.
  - pose proof (Permutation_length (goals_split goals)) as Hlen.
    rewrite length_app in Hlen. unfold showEmpty, activeGoals, completedGoals in *.
    rewrite andb_true_iff, !Nat.eqb_eq. split.
    + intros [Ha Hc]. apply length_zero_iff_nil. lia.
    + by intros ->.
Qed.

Section Summary.

Variable goalBalances : gmap string number.

Lemma totalTarget_one (goal : Goal.t) :
  Goal.completed goal = false →
  totalTarget [goal]
  = (Goal.target_amount goal - Goal.starting_balance goal)%js.
Proof.
  intros Hactive. unfold totalTarget, activeGoals. cbn [List.filter].
  rewrite Hactive. cbn. apply add_zero_l.
Qed.

Lemma totalSaved_one (goal : Goal.t) :
  Goal.completed goal = false →
  totalSaved goalBalances [goal]
  = (getCurrentAmount goalBalances goal - Goal.starting_balance goal)%js.
Proof.
  intros Hactive. unfold totalSaved, activeGoals. cbn [List.filter].
  rewrite Hactive. cbn. apply add_zero_l.
Qed.

End Summary.

(** X23. The width of the summary bar is guarded against a division by
    zero: it is 0 whenever the total target is not positive, and for finite
    totals it is never [NaN]. *)
Theorem summaryWidth_guarded
    (goalBalances : gmap string number) (goals : list Goal.t) :
  ((totalTarget goals <=? Num.zero)%js = true →
   summaryWidth goalBalances goals = Num.zero)
  ∧ (Num.is_finite (totalSaved goalBalances goals) →
     Num.is_finite (totalTarget goals) →
     ¬ Num.is_nan (summaryWidth goalBalances goals)).
Proof.
  unfold summaryWidth, Num.gtb. split.
  - intros Hle.
    destruct (totalTarget goals) as [t| | |]; try done.
    rewrite zero_Fin in *. apply leb_Fin_true in Hle.
    by assert ((Fin 0 <? Fin t)%js = false) as ->
      by by apply ltb_Fin_false.
  - intros Hsaved Htarget.
    destruct (totalSaved goalBalances goals) as [s| | |]; [|done..].
    destruct (totalTarget goals) as [t| | |]; [|done..].
    rewrite zero_Fin. unfold Num.ltb.
    destruct (Num.ltb_Qc 0 t) eqn:Hpos; [|by intros []].
    apply ltb_Qc_true in Hpos. rewrite div_Fin_pos by done. by intros [].
Qed.

Lemma summaryWidth_guarded_witness :
  summaryWidth {[ "goal-n"%string := Num.of_Z 300 ]}
    [Scenario.goalN; Scenario.goalDone] = Num.zero.
Proof.
  apply (proj1 (summaryWidth_guarded {[ "goal-n"%string := Num.of_Z 300 ]}
                  [Scenario.goalN; Scenario.goalDone])).
  vm_compute. reflexivity.
Defined.

(** X24. For a single active goal with finite amounts and a stored amount
    other than 0, the bar of the goal is the summary bar clamped to
    [0, 100] when the target exceeds the starting balance; otherwise the
    goal is at 100% while the summary bar is empty. *)
Theorem summary_of_one_goal
    (goalBalances : gmap string number) (goal : Goal.t) (stored : number) :
  Goal.completed goal = false →
  goalBalances !! Goal.id goal = Some stored → Num.truthy stored = true →
  Num.is_finite stored →
  Num.is_finite (Goal.target_amount goal) →
  Num.is_finite (Goal.starting_balance goal) →
  if (totalTarget [goal] >? Num.zero)%js
  then getProgress goalBalances goal
       = Spec.clamp (summaryWidth goalBalances [goal]) Num.zero (Num.of_Z 100)
  else getProgress goalBalances goal = Num.of_Z 100
       ∧ summaryWidth goalBalances [goal] = Num.zero.
Proof.
  intros Hactive Hstored Htruthy Hc Ht Hs. unfold summaryWidth.
  rewrite (totalTarget_one _ Hactive), (totalSaved_one _ _ Hactive).
  assert (getCurrentAmount goalBalances goal = stored) as ->.
  { unfold getCurrentAmount. rewrite Hstored. by apply or_default_Some. }
  assert (or_default (goalBalances !! Goal.id goal) Num.zero = stored)
    as Hzero.
  { rewrite Hstored. by apply or_default_Some. }
  destruct stored as [c| | |]; [|done..].
  destruct (Goal.target_amount goal) as [t| | |] eqn:Htarget; [|done..].
  destruct (Goal.starting_balance goal) as [s| | |] eqn:Hstart; [|done..].
  rewrite (getProgress_Fin _ _ _ _ _ Hzero Htarget Hstart).
  rewrite !sub_Fin. unfold Num.gtb.
  assert ((Num.zero <? Fin (t - s))%js = Num.ltb_Qc 0 (t - s)) as Hlt
    by by rewrite zero_Fin.
  rewrite !Hlt. clear Hlt.
  destruct (Num.ltb_Qc 0 (t - s)) eqn:Hpos.
  - apply ltb_Qc_true in Hpos.
    assert (Num.leb_Qc (t - s) 0 = false) as -> by by apply leb_Qc_false.
    rewrite div_Fin_pos by done. by unfold Num.of_Z at 2.
  - apply ltb_Qc_false in Hpos.
    by assert (Num.leb_Qc (t - s) 0 = true) as -> by by apply leb_Qc_true.
Qed.

Lemma summary_of_one_goal_witness :
  if (totalTarget [Scenario.goalA] >? Num.zero)%js
  then getProgress {[ "goal-a"%string := Num.of_Z 2000 ]} Scenario.goalA
       = Spec.clamp
           (summaryWidth {[ "goal-a"%string := Num.of_Z 2000 ]}
              [Scenario.goalA])
           Num.zero (Num.of_Z 100)
  else getProgress {[ "goal-a"%string := Num.of_Z 2000 ]} Scenario.goalA
       = Num.of_Z 100
       ∧ summaryWidth {[ "goal-a"%string := Num.of_Z 2000 ]} [Scenario.goalA]
         = Num.zero.
Proof.
  apply (summary_of_one_goal {[ "goal-a"%string := Num.of_Z 2000 ]}
           Scenario.goalA (Num.of_Z 2000)).
  - reflexivity.
  - vm_compute. reflexivity.
  - reflexivity.
  - exact I.
  - exact I.
  - exact I.
Defined.

(** ** The map of balances *)

Section Balances.

Variable accounts : list Account.t.

Local Abbreviation setBalance :=
  (fun balances goal => <[Goal.id goal := goalBalance accounts goal]> balances).

Lemma setBalance_is_Some (goals : list Goal.t)
    (balances : gmap string number) (k : string) :
  is_Some (fold_left setBalance goals balances !! k)
  ↔ k ∈ Goal.id <$> goals ∨ is_Some (balances !! k).
Proof.
  revert balances. induction goals as [|g goals IH]; intros balances.
  - cbn. split; [by right|]. intros [Hin|?]; [|done].
    by apply elem_of_nil in Hin.
  - cbn [fold_left]. rewrite IH, fmap_cons, elem_of_cons.
    destruct (decide (Goal.id g = k)) as [<-|Hne].
    + rewrite lookup_insert_eq. split; [|by eauto]. intros _. left. by left.
    + rewrite lookup_insert_ne by done. split.
      * intros [?|?]; [left; by right|by right].
      * intros [[?|?]|?]; [done|by left|by right].
Qed.

Lemma setBalance_last (goals1 goals2 : list Goal.t) (goal : Goal.t)
    (balances : gmap string number) :
  Goal.id goal ∉ Goal.id <$> goals2 →
  fold_left setBalance (goals1 ++ goal :: goals2) balances !! Goal.id goal
  = Some (goalBalance accounts goal).
Proof.
  intros Hlast. rewrite fold_left_app. cbn [fold_left].
  rewrite (setBalance_other accounts) by done. apply lookup_insert_eq.
Qed.

End Balances.

(** X25. [calculateBalances] stores an amount for the identifier of every
    goal and for no other identifier; when several goals carry the same
    identifier the amount is that of the last of them.  For a goal whose
    identifier has no entry, [getCurrentAmount] is its starting balance. *)
Theorem calculateBalances_entries
    (accounts : list Account.t) (goals : list Goal.t) :
  (∀ id, is_Some (calculateBalances accounts goals !! id)
         ↔ id ∈ Goal.id <$> goals)
  ∧ (∀ goals1 goal goals2,
       goals = goals1 ++ goal :: goals2 →
       Goal.id goal ∉ Goal.id <$> goals2 →
       calculateBalances accounts goals !! Goal.id goal
       = Some (goalBalance accounts goal))
  ∧ (∀ goal,
       Goal.id goal ∉ Goal.id <$> goals →
       getCurrentAmount (calculateBalances accounts goals) goal
       = Goal.starting_balance goal).
Proof.
  assert (∀ id, is_Some (calculateBalances accounts goals !! id)
                ↔ id ∈ Goal.id <$> goals) as Hdom.
  { intros id. unfold calculateBalances. rewrite setBalance_is_Some.
    rewrite lookup_empty. split; [|by left]. intros [?|[? ?]]; done. }
  split; [done|]. split.
  - intros goals1 goal goals2 -> Hlast. by apply setBalance_last.
  - intros goal Hnew. unfold getCurrentAmount.
    destruct (calculateBalances accounts goals !! Goal.id goal) eqn:Hentry;
      [|done].
    destruct Hnew. apply Hdom. by eexists.
Qed.

Lemma calculateBalances_entries_witness :
  calculateBalances [Scenario.checking 4000]
    ([Scenario.goalM] ++ Scenario.goalA :: [Scenario.goalB])
    !! Goal.id Scenario.goalA
  = Some (goalBalance [Scenario.checking 4000] Scenario.goalA).
Proof.
  apply (proj1 (proj2 (calculateBalances_entries [Scenario.checking 4000]
                         ([Scenario.goalM] ++ Scenario.goalA
                            :: [Scenario.goalB])))
           [Scenario.goalM] Scenario.goalA [Scenario.goalB]).
  - reflexivity.
  - compute_done.
Defined.

(** ** A window of zero days *)

(** The flag of [isOnTrack] with a window of zero days, for any days
    remaining and any progress. *)
Section ZeroWindow.

Variable goalBalances : gmap string number.
Variable dateTime : string → number.
Variable today : number.

(** The progress is a rational or [NaN], never an infinity. *)
Lemma getProgress_no_infinity (goal : Goal.t) :
  getProgress goalBalances goal ≠ PosInf
  ∧ getProgress goalBalances goal ≠ NegInf.
Proof.
  unfold getProgress. destruct (_ <=? Num.zero)%js; [done|].
  destruct (_ * Num.of_Z 100)%js as [x| | |]; try done.
  unfold Math.max, Math.min, Num.zero, Num.of_Z, Num.leb.
  destruct (Num.leb_Qc (Qc_of_Z 0) x);
    by destruct (Num.leb_Qc (Qc_of_Z 100) _).
Qed.

(** A window between equal finite times has zero days. *)
Lemma totalDays_same_time (goal : Goal.t) (target_date : string) :
  Num.is_finite (dateTime target_date) →
  dateTime (Goal.created_at goal) = dateTime target_date →
  totalDays dateTime goal target_date = Num.zero.
Proof.
  intros Hfinite Hsame. unfold totalDays. rewrite Hsame.
  destruct (dateTime target_date) as [a| | |]; [|done..].
  rewrite msPerDay_value, sub_Fin. unfold Num.of_Z.
  rewrite div_Fin_pos by (apply of_Z_pos; lia).
  rewrite zero_Fin. f_equal. unfold Qcminus, Qcdiv.
  by rewrite Qcplus_opp_r, Qcmult_0_l.
Qed.

(** The expected progress of a window of zero days, by the days
    remaining. *)
Lemma expectedProgress_zero_window (goal : Goal.t) (target_date : string)
    (days : number) :
  totalDays dateTime goal target_date = Num.zero →
  (expectedProgress dateTime goal target_date days - Num.of_Z 5)%js
  = if (Num.zero <? days)%js then NegInf
    else if (days <? Num.zero)%js then PosInf else NaN.
Proof.
  intros Hzero. unfold expectedProgress. rewrite Hzero, zero_Fin.
  assert (Num.sgn 0 = Eq) as H0 by by apply sgn_Eq.
  assert (Num.sgn (Qc_of_Z 100) = Gt) as H100 by reflexivity.
  destruct days as [d| | |].
  - rewrite sub_Fin. unfold Num.div. rewrite H0. unfold Num.ltb.
    destruct (Num.sgn (0 - d)) eqn:Hsign; cbn [Num.inf_of_sign].
    + apply sgn_Eq in Hsign. apply (proj1 (Qcopp_zero d)) in Hsign.
      rewrite Hsign.
      by assert (Num.ltb_Qc 0 0 = false) as ->
        by apply ltb_Qc_false, Qcle_refl.
    + apply sgn_Lt in Hsign. apply (proj1 (Qcopp_neg d)) in Hsign.
      assert (Num.ltb_Qc 0 d = true) as -> by by apply ltb_Qc_true.
      unfold Num.of_Z, Num.mul. by rewrite H100.
    + apply sgn_Gt in Hsign. apply (proj1 (Qcopp_pos d)) in Hsign.
      assert (Num.ltb_Qc 0 d = false) as ->
        by by apply ltb_Qc_false, Qclt_le_weak.
      assert (Num.ltb_Qc d 0 = true) as -> by by apply ltb_Qc_true.
      unfold Num.of_Z, Num.mul. by rewrite H100.
  - unfold Num.sub, Num.add, Num.neg, Num.div. rewrite H0.
    unfold Num.of_Z, Num.mul. by rewrite H100.
  - unfold Num.sub, Num.add, Num.neg, Num.div. rewrite H0.
    unfold Num.of_Z, Num.mul. by rewrite H100.
  - done.
Qed.

End ZeroWindow.

(** C4. For a goal whose target date is at the time of its creation, so
    that the window has 0 days, [isOnTrack] returns a boolean, never [NaN]
    or an infinity: the undefined quotient [elapsed / totalDays] ends in
    the comparison [>=], and the flag is [true] exactly when days remain
    and the progress is a number, [false] otherwise. *)
Theorem zero_window_defined
    (goalBalances : gmap string number) (dateTime : string → number)
    (today : number) (goal : Goal.t) (target_date : string) (days : number) :
  Goal.target_date goal = Some target_date → target_date ≠ ""%string →
  Num.is_finite (dateTime target_date) →
  dateTime (Goal.created_at goal) = dateTime target_date →
  getDaysRemaining dateTime today goal = Some days →
  totalDays dateTime goal target_date = Num.zero
  ∧ (∃ onTrack : bool,
       isOnTrack goalBalances dateTime today goal = Some onTrack)
  ∧ (¬ Num.is_nan (getProgress goalBalances goal) →
     isOnTrack goalBalances dateTime today goal
     = Some (Num.zero <? days)%js)
  ∧ (Num.is_nan (getProgress goalBalances goal) →
     isOnTrack goalBalances dateTime today goal = Some false).
Proof.
  intros Hdate Hne Hfinite Hsame Hdays.
  pose proof (totalDays_same_time dateTime goal target_date Hfinite Hsame)
    as Hzero.
  split; [done|]. unfold isOnTrack.
  rewrite (targetDate_Some _ _ Hdate Hne), Hdays.
  rewrite (expectedProgress_zero_window dateTime goal target_date days Hzero).
  destruct (getProgress_no_infinity goalBalances goal) as [Hpos Hneg].
  split; [by eexists|]. unfold Num.geb.
  destruct (getProgress goalBalances goal) as [p| | |]; try done.
  - split; [|done]. intros _.
    destruct (Num.zero <? days)%js; [done|].
    by destruct (days <? Num.zero)%js.
  - split; [by intros []|]. intros _.
    destruct (Num.zero <? days)%js; [done|].
    by destruct (days <? Num.zero)%js.
Qed.

(** The goal due at the time of its creation, looked at on that instant:
    no days remain and the flag is [false]. *)
Lemma zero_window_defined_witness :
  isOnTrack {[ "goal-d"%string := Num.of_Z 5000 ]} Scenario.dateTime
    Scenario.todayD Scenario.goalD
  = Some false.
Proof.
  change (Some false) with (Some (Num.zero <? Num.of_Z 0)%js).
  refine (proj1 (proj2 (proj2 (zero_window_defined
            {[ "goal-d"%string := Num.of_Z 5000 ]} Scenario.dateTime
            Scenario.todayD Scenario.goalD "2025-01-01T00:00:00.000Z"
            (Num.of_Z 0) _ _ _ _ _))) _).
  - reflexivity.
  - discriminate.
  - exact I.
  - reflexivity.
  - js_eval.
  - vm_compute. intros [].
Defined.
